(** * A shallow embedding of [train.py]

    The script trains a residual network on CIFAR-10 through the Lightning
    training framework.  The code of the repository is glue: a model adapter
    ([LitModel]), a dataset adapter ([CIFAR10DataModule]) and a handful of
    top-level statements.  Everything numerical lives in imported libraries.

    The embedding keeps the adapters as they are written and models the few
    library entry points they call (dataset constructor, [random_split],
    [DataLoader]) by their documented behaviour.  Python attributes are a
    finite map from names to values, methods are computations in a state and
    exception monad, and the outside world (environment variables, files on
    disk, the random generator, the presence of a CUDA device) is an explicit
    record that is threaded through. *)

From Stdlib Require Import NArith ZArith QArith Lia.
From stdpp Require Import gmap strings list fin_maps.

Set Warnings "-register-all".

Open Scope string_scope.
Open Scope list_scope.
Open Scope N_scope.

(** ** Python-flavoured helpers *)

(** [len(l)] as a Python integer. *)
Definition len {A : Type} (l : list A) : N := N.of_nat (length l).

(** [list(range(n))], counting in binary so that large [n] stay cheap. *)
Fixpoint range_from (start : N) (count : nat) : list N :=
  match count with
  | O => []
  | S count' => start :: range_from (N.succ start) count'
  end.

Definition range (n : N) : list N := range_from 0 (N.to_nat n).

(** [l[a:b]] for [0 <= a <= b]; like Python, the slice is clamped to the
    length of [l]. *)
Definition slice {A : Type} (l : list A) (a b : N) : list A :=
  take (N.to_nat (b - a)) (drop (N.to_nat a) l).

(** [sum(lengths)]. *)
Definition sum (l : list N) : N := foldr N.add 0 l.

(** ** Exceptions and the state monad of methods *)

Inductive Exn : Type :=
| AttributeError (name : string)
| TypeError (what : string)
| ValueError (msg : string)
| RuntimeError (msg : string)
| IndexError
| URLError.

(** A raised exception keeps the state reached so far: assignments made
    before the failing statement are not rolled back. *)
Inductive Res (S A : Type) : Type :=
| Ok (a : A) (s : S)
| Raise (e : Exn) (s : S).

Arguments Ok {S A} a s.
Arguments Raise {S A} e s.

Definition M (S A : Type) : Type := S -> Res S A.

Definition ret {S A : Type} (a : A) : M S A := fun s => Ok a s.

Definition bind {S A B : Type} (m : M S A) (k : A -> M S B) : M S B :=
  fun s =>
    match m s with
    | Ok a s' => k a s'
    | Raise e s' => Raise e s'
    end.

Definition raise {S A : Type} (e : Exn) : M S A := fun s => Raise e s.

Definition get {S : Type} : M S S := fun s => Ok s s.

Definition modify {S : Type} (f : S -> S) : M S unit := fun s => Ok tt (f s).

Declare Scope py_scope.
Delimit Scope py_scope with py.

Notation "'let*' x ':=' m 'in' k" :=
  (bind m (fun x => k))
  (at level 10, x name, m at level 100, k at level 200) : py_scope.

Notation "m ';;;' k" :=
  (bind m (fun _ => k))
  (at level 100, k at level 200, right associativity) : py_scope.

Open Scope py_scope.

(** ** The outside world *)

Record World : Type := mkWorld {
  environ : gmap string string;   (* os.environ *)
  cuda : bool;                    (* torch.cuda.is_available() *)
  fs : gset string;               (* roots holding a verified CIFAR-10 copy *)
  network : bool;                 (* can the archive be fetched? *)
  cifar_len : bool -> N;          (* len() of the loaded train / test data *)
  rand : nat -> N -> list N;      (* k-th draw of torch.randperm(n) *)
  draws : nat                     (* how many draws were made so far *)
}.

Definition set_fs (f : gset string) (w : World) : World :=
  mkWorld (environ w) (cuda w) f (network w) (cifar_len w) (rand w) (draws w).

Definition set_draws (d : nat) (w : World) : World :=
  mkWorld (environ w) (cuda w) (fs w) (network w) (cifar_len w) (rand w) d.

(** The generator is a generator of permutations: this is what
    [torch.randperm] promises, and all that the splits rely on. *)
Definition fair_generator (w : World) : Prop :=
  forall k n, rand w k n ≡ₚ range n.

(** ** torchvision: transforms and the CIFAR10 dataset *)

Inductive TransformOp : Type :=
| ToTensor
| Normalize (mean std : list Q).

(** [transforms.Compose([...])] *)
Definition Transform : Type := list TransformOp.

Record Dataset : Type := mkDataset {
  ds_root : string;
  ds_train : bool;
  ds_transform : option Transform;
  ds_len : N
}.

(** [CIFAR10(root, train=..., transform=..., download=...)].  With
    [download=True] the archive (which holds both the train and the test
    batches) is fetched unless a verified copy is already under [root];
    afterwards the constructor insists on a verified copy. *)
Definition CIFAR10 (root : string) (train : bool)
    (transform : option Transform) (download : bool) : M World Dataset :=
  (if download then
     let* w := get in
     if decide (root ∈ fs w) then ret tt
     else if network w then modify (set_fs ({[root]} ∪ fs w))
     else raise URLError
   else ret tt) ;;;
  let* w := get in
  if decide (root ∈ fs w) then
    ret (mkDataset root train transform (cifar_len w train))
  else
    raise (RuntimeError "Dataset not found or corrupted. You can use download=True to download it").

(** ** torch.utils.data: Subset and random_split *)

Record Subset : Type := mkSubset {
  sub_dataset : Dataset;
  sub_indices : list N
}.

Definition randperm (n : N) : M World (list N) :=
  let* w := get in
  modify (set_draws (S (draws w))) ;;;
  ret (rand w (draws w) n).

(** [[Subset(dataset, indices[offset - length : offset])
      for offset, length in zip(accumulate(lengths), lengths)]];
    [offset] is the running sum before the current length. *)
Fixpoint subsets_at (d : Dataset) (indices : list N) (offset : N)
    (lengths : list N) : list Subset :=
  match lengths with
  | [] => []
  | n :: rest =>
      let offset' := offset + n in
      mkSubset d (slice indices (offset' - n) offset')
        :: subsets_at d indices offset' rest
  end.

Definition random_split (dataset : Dataset) (lengths : list N)
    : M World (list Subset) :=
  if negb (N.eqb (sum lengths) (ds_len dataset)) then
    raise (ValueError "Sum of input lengths does not equal the length of the input dataset!")
  else
    let* indices := randperm (sum lengths) in
    ret (subsets_at dataset indices 0 lengths).

(** ** Python values stored in attributes *)

Inductive PyVal : Type :=
| VStr (s : string)
| VInt (i : Z)
| VTuple (t : list Z)
| VTransform (t : Transform)
| VDataset (d : Dataset)
| VSubset (s : Subset).

(** A sample is named by the dataset it comes from and its position there:
    [(d, i)] stands for the (image, label) pair [d[i]]. *)
Definition Sample : Type := (Dataset * N)%type.

Definition dataset_getitem (d : Dataset) (i : N) : option Sample :=
  if i <? ds_len d then Some (d, i) else None.

(** [Subset.__getitem__]: [self.dataset[self.indices[idx]]]. *)
Definition subset_getitem (s : Subset) (idx : N) : option Sample :=
  match sub_indices s !! N.to_nat idx with
  | Some i => dataset_getitem (sub_dataset s) i
  | None => None
  end.

Definition py_len (v : PyVal) : option N :=
  match v with
  | VDataset d => Some (ds_len d)
  | VSubset s => Some (len (sub_indices s))
  | _ => None
  end.

Definition py_getitem (v : PyVal) (i : N) : option Sample :=
  match v with
  | VDataset d => dataset_getitem d i
  | VSubset s => subset_getitem s i
  | _ => None
  end.

(** ** torch.utils.data: DataLoader *)

Record DataLoader : Type := mkDataLoader {
  dl_dataset : PyVal;
  batch_size : N;
  shuffle : bool;
  drop_last : bool
}.

(** [DataLoader(dataset, batch_size=..., shuffle=..., drop_last=...)]; the
    keyword arguments left out take the library defaults. *)
Definition DataLoader_init {S : Type} (dataset : PyVal) (batch_size : option N)
    (shuffle drop_last : option bool) : M S DataLoader :=
  let bs := default 1 batch_size in
  if bs =? 0 then
    raise (ValueError "batch_size should be a positive integer value")
  else
    ret (mkDataLoader dataset bs (default false shuffle) (default false drop_last)).

(** [BatchSampler.__iter__]: indices are appended to the current batch, a
    batch is yielded when it is full, and what is left at the end is yielded
    unless [drop_last]. *)
Fixpoint batch_sampler (bs : N) (drop : bool) (batch : list N)
    (sampler : list N) : list (list N) :=
  match sampler with
  | [] => if (0 <? len batch) && negb drop then [batch] else []
  | idx :: rest =>
      let batch' := batch ++ [idx] in
      if len batch' =? bs then batch' :: batch_sampler bs drop [] rest
      else batch_sampler bs drop batch' rest
  end.

(** One pass over the loader: the sampler fixes the order (sequential, or a
    fresh permutation when shuffling), the batch sampler cuts it, and every
    batch is fetched from the dataset. *)
Definition iterate (dl : DataLoader) : M World (list (list Sample)) :=
  match py_len (dl_dataset dl) with
  | None => raise (TypeError "object has no len()")
  | Some n =>
      let* order := (if shuffle dl then randperm n else ret (range n)) in
      match mapM (mapM (py_getitem (dl_dataset dl)))
                 (batch_sampler (batch_size dl) (drop_last dl) [] order) with
      | Some batches => ret batches
      | None => raise IndexError
      end
  end.

(** ** Module-level constants (lines 22-23) *)

Record Globals : Type := mkGlobals {
  PATH_DATASETS : string;
  BATCH_SIZE : N
}.

Definition module_constants (w : World) : Globals :=
  {| PATH_DATASETS := default "." (environ w !! "PATH_DATASETS");
     BATCH_SIZE := if cuda w then 256 else 64 |}.

(** ** Objects: attributes plus the world *)

Record St : Type := mkSt {
  self : gmap string PyVal;
  world : World
}.

Definition in_world {A : Type} (m : M World A) : M St A :=
  fun st =>
    match m (world st) with
    | Ok a w => Ok a (mkSt (self st) w)
    | Raise e w => Raise e (mkSt (self st) w)
    end.

Definition getattr (name : string) : M St PyVal :=
  fun st =>
    match self st !! name with
    | Some v => Ok v st
    | None => Raise (AttributeError name) st
    end.

Definition setattr (name : string) (v : PyVal) : M St unit :=
  modify (fun st => mkSt (<[name := v]> (self st)) (world st)).

Definition as_str (v : PyVal) : M St string :=
  match v with
  | VStr s => ret s
  | _ => raise (TypeError "expected str")
  end.

Definition as_transform (v : PyVal) : M St Transform :=
  match v with
  | VTransform t => ret t
  | _ => raise (TypeError "transform is not callable")
  end.

(** [stage == name or stage is None] *)
Definition stage_is (stage : option string) (name : string) : bool :=
  match stage with
  | Some s => String.eqb s name
  | None => true
  end.

(** ** CIFAR10DataModule (lines 159-195) *)

Module CIFAR10DataModule.

Definition split_lengths : list N := [45000; 5000].

Definition __init__ (data_dir : option string) : M St unit :=
  let data_dir := default "./" data_dir in
  setattr "data_dir" (VStr data_dir) ;;;
  setattr "transform"
    (VTransform [ToTensor;
                 Normalize [1#2; 1#2; 1#2]%Q [1#2; 1#2; 1#2]%Q]) ;;;
  setattr "dims" (VTuple [3; 32; 32]%Z) ;;;
  setattr "num_classes" (VInt 10).

Definition prepare_data : M St unit :=
  let* data_dir := getattr "data_dir" in
  let* root := as_str data_dir in
  in_world (CIFAR10 root true None true) ;;;
  let* data_dir := getattr "data_dir" in
  let* root := as_str data_dir in
  in_world (CIFAR10 root false None true) ;;;
  ret tt.

Definition setup (stage : option string) : M St unit :=
  (if stage_is stage "fit" then
     let* data_dir := getattr "data_dir" in
     let* root := as_str data_dir in
     let* tf := getattr "transform" in
     let* transform := as_transform tf in
     let* cifar_full := in_world (CIFAR10 root true (Some transform) false) in
     let* parts := in_world (random_split cifar_full split_lengths) in
     match parts with
     | [cifar_train; cifar_val] =>
         setattr "cifar_train" (VSubset cifar_train) ;;;
         setattr "cifar_val" (VSubset cifar_val)
     | _ => raise (ValueError "wrong number of values to unpack")
     end
   else ret tt) ;;;
  (if stage_is stage "test" then
     let* data_dir := getattr "data_dir" in
     let* root := as_str data_dir in
     let* tf := getattr "transform" in
     let* transform := as_transform tf in
     let* cifar_test := in_world (CIFAR10 root false (Some transform) false) in
     setattr "cifar_test" (VDataset cifar_test)
   else ret tt).

Definition train_dataloader (g : Globals) : M St DataLoader :=
  let* cifar_train := getattr "cifar_train" in
  DataLoader_init cifar_train (Some (BATCH_SIZE g)) None None.

Definition val_dataloader (g : Globals) : M St DataLoader :=
  let* cifar_val := getattr "cifar_val" in
  DataLoader_init cifar_val (Some (BATCH_SIZE g)) None None.

Definition test_dataloader (g : Globals) : M St DataLoader :=
  let* cifar_test := getattr "cifar_test" in
  DataLoader_init cifar_test (Some (BATCH_SIZE g)) None None.

End CIFAR10DataModule.

(** ** torch.nn and torch.optim *)

(** A module owns some parameters (named by their identity) and has named
    children. *)
Inductive nnModule : Type :=
| Mod (own : list N) (children : list (string * nnModule)).

Fixpoint all_parameters (m : nnModule) : list N :=
  match m with
  | Mod own children =>
      own ++ flat_map (fun c => let '(_, child) := c in all_parameters child)
                      children
  end.

(** [Module.parameters()]: every parameter of the module and of its
    descendants, each one once. *)
Definition parameters (m : nnModule) : list N := remove_dups (all_parameters m).

(** [p] is a parameter of [m] or of a module below it. *)
Inductive parameter_of (p : N) : nnModule -> Prop :=
| param_own own children :
    p ∈ own -> parameter_of p (Mod own children)
| param_child own children name child :
    (name, child) ∈ children -> parameter_of p child ->
    parameter_of p (Mod own children).

Record Optimizer : Type := mkOptimizer {
  opt_class : string;
  opt_params : list N;
  opt_defaults : gmap string Q
}.

Definition adam_defaults : gmap string Q :=
  {[ "lr" := (1 # 1000)%Q; "eps" := (1 # 100000000)%Q;
     "weight_decay" := 0%Q ]}.

(** [torch.optim.Adam(params, **kwargs)]: keyword arguments override the
    defaults of the class. *)
Definition Adam (params : list N) (kwargs : gmap string Q) : Optimizer :=
  mkOptimizer "Adam" params (kwargs ∪ adam_defaults).

(** What [configure_optimizers] may hand to the trainer. *)
Inductive OptimizerConf : Type :=
| Single (o : Optimizer)
| Several (os : list Optimizer).

Definition optimizers_of (c : OptimizerConf) : list Optimizer :=
  match c with
  | Single o => [o]
  | Several os => os
  end.

(** ** LitModel (lines 103-132) *)

(** [self.log(name, value, prog_bar=..., sync_dist=...)] records one entry;
    both flags default to [False] in the framework. *)
Record LogEntry (Scalar : Type) : Type := mkLogEntry {
  log_name : string;
  log_value : Scalar;
  log_prog_bar : bool;
  log_sync_dist : bool
}.

Arguments mkLogEntry {Scalar} _ _ _ _.
Arguments log_name {Scalar} _.
Arguments log_value {Scalar} _.
Arguments log_prog_bar {Scalar} _.
Arguments log_sync_dist {Scalar} _.

(** [a == b] on one-dimensional integer tensors of the same length. *)
Definition tensor_eq (a b : list N) : list bool := zip_with N.eqb a b.

(** [torch.sum] of a boolean tensor. *)
Definition tensor_sum (t : list bool) : N := len (filter (fun b => b = true) t).

Module LitModel.
Section Torch.

(** Floating-point tensors and the operations on them stay abstract. *)
Variables Images Matrix Scalar : Type.
Variable resnet20 : nnModule.                       (* resnet_cifar.resnet20() *)
Variable call : nnModule -> Images -> Matrix.       (* module(x) *)
Variable log_softmax : Matrix -> Z -> Matrix.       (* F.log_softmax(x, dim) *)
Variable nll_loss : Matrix -> list N -> Scalar.     (* F.nll_loss(input, target) *)
Variable argmax : Matrix -> Z -> list N.            (* torch.argmax(x, dim) *)
Variable true_divide : N -> N -> Scalar.            (* integer tensor / int *)

Record LitModel : Type := mkLitModel { model : nnModule }.

Definition Batch : Type := (Images * list N)%type.

Definition __init__ : LitModel := mkLitModel resnet20.

(** The adapter seen as a [torch.nn.Module]: no parameter of its own and
    one child, [self.model]. *)
Definition as_module (self : LitModel) : nnModule :=
  Mod [] [("model", model self)].

Definition log (name : string) (value : Scalar)
    (prog_bar sync_dist : option bool) : M (list (LogEntry Scalar)) unit :=
  modify (fun logged =>
    logged ++ [mkLogEntry name value (default false prog_bar)
                          (default false sync_dist)]).

Definition forward (self : LitModel) (x : Images) : Matrix :=
  let x := call (model self) x in
  log_softmax x 1.

Definition training_step (self : LitModel) (batch : Batch)
    : M (list (LogEntry Scalar)) Scalar :=
  let '(x, y) := batch in
  let logits := forward self x in
  let loss := nll_loss logits y in
  log "train_loss" loss (Some true) (Some true) ;;;
  ret loss.

Definition validation_step (self : LitModel) (batch : Batch) (batch_idx : N)
    : M (list (LogEntry Scalar)) unit :=
  let '(x, y) := batch in
  let logits := forward self x in
  let loss := nll_loss logits y in
  let acc := true_divide (tensor_sum (tensor_eq (argmax logits 1) y)) (len y) in
  log "val_loss" loss (Some true) (Some true) ;;;
  log "val_acc" acc (Some true) (Some true).

Definition configure_optimizers (self : LitModel) : OptimizerConf :=
  let optimizer := Adam (parameters (as_module self)) ∅ in
  Single optimizer.

End Torch.
End LitModel.

(** ** The top level of the script *)

(** What a top-level name is bound to once the script has run. *)
Inductive Binding : Type :=
| Imported (source : string)
| Constant
| Class (base : string)
| Instance (class : string).

#[global] Instance Binding_eq_dec : EqDecision Binding.
Proof. solve_decision. Defined.




(** Line 205: [dm = CIFAR10DataModule()], on a fresh object. *)
Definition fresh (w : World) : St := mkSt ∅ w.

Definition dm : M St unit := CIFAR10DataModule.__init__ None.

(** The two guarded blocks of [CIFAR10DataModule.setup], named so that they
    can be reasoned about one at a time (see [setup_blocks]). *)
Definition setup_fit : M St unit :=
  let* data_dir := getattr "data_dir" in
  let* root := as_str data_dir in
  let* tf := getattr "transform" in
  let* transform := as_transform tf in
  let* cifar_full := in_world (CIFAR10 root true (Some transform) false) in
  let* parts := in_world (random_split cifar_full CIFAR10DataModule.split_lengths) in
  match parts with
  | [cifar_train; cifar_val] =>
      setattr "cifar_train" (VSubset cifar_train) ;;;
      setattr "cifar_val" (VSubset cifar_val)
  | _ => raise (ValueError "wrong number of values to unpack")
  end.

Definition setup_test : M St unit :=
  let* data_dir := getattr "data_dir" in
  let* root := as_str data_dir in
  let* tf := getattr "transform" in
  let* transform := as_transform tf in
  let* cifar_test := in_world (CIFAR10 root false (Some transform) false) in
  setattr "cifar_test" (VDataset cifar_test).

(** The attributes a successful ['fit'] block leaves behind. *)
Definition fit_attrs (root : string) (tf : Transform) (w : World)
    (attrs : gmap string PyVal) : gmap string PyVal :=
  let cifar_full := mkDataset root true (Some tf) (cifar_len w true) in
  let indices := rand w (draws w) 50000 in
  <["cifar_val" := VSubset (mkSubset cifar_full (slice indices 45000 50000))]>
    (<["cifar_train" := VSubset (mkSubset cifar_full (slice indices 0 45000))]>
       attrs).

(** The attributes a successful ['test'] block leaves behind. *)
Definition test_attrs (root : string) (tf : Transform) (w : World)
    (attrs : gmap string PyVal) : gmap string PyVal :=
  <["cifar_test" := VDataset (mkDataset root false (Some tf) (cifar_len w false))]>
    attrs.

(** The state a computation ends in, whether it returns or raises. *)
Definition final {S A : Type} (r : Res S A) : S :=
  match r with
  | Ok _ s => s
  | Raise _ s => s
  end.

(** A method that assigns no attribute. *)
Definition assigns_nothing {A : Type} (m : M St A) : Prop :=
  forall st, self (final (m st)) = self st.

(** The attributes of a freshly constructed [CIFAR10DataModule()]. *)
Definition dm_attrs : gmap string PyVal :=
  <["num_classes" := VInt 10]>
    (<["dims" := VTuple [3; 32; 32]%Z]>
       (<["transform" :=
            VTransform [ToTensor; Normalize [1#2; 1#2; 1#2]%Q [1#2; 1#2; 1#2]%Q]]>
          (<["data_dir" := VStr "./"]> ∅))).

(** A machine without GPU and without network, with CIFAR-10 already
    unpacked in the current directory, whose random permutations happen to
    be the identity. *)
Definition local_copy : World :=
  mkWorld ∅ false {["./"]} false
          (fun train => if train then 50000 else 10000)
          (fun _ n => range n) 0.

(** A machine with network access and nothing on disk, where the
    environment names a dataset directory. *)
Definition online_machine : World :=
  mkWorld {["PATH_DATASETS" := "/data"]} false ∅ true
          (fun train => if train then 50000 else 10000)
          (fun _ n => range n) 0.

(** The samples of a dataset, in index order. *)
Definition samples_of (v : PyVal) : list Sample :=
  match v with
  | VDataset d => (fun i => (d, i)) <$> range (ds_len d)
  | VSubset s => (fun i => (sub_dataset s, i)) <$> sub_indices s
  | _ => []
  end.

(** Every index of a subset points into its dataset. *)
Definition well_indexed (v : PyVal) : Prop :=
  match v with
  | VDataset _ => True
  | VSubset s => Forall (fun i => i < ds_len (sub_dataset s)) (sub_indices s)
  | _ => False
  end.

(** The three loaders, each with the attribute it reads. *)
Definition loaders : list (string * (Globals -> M St DataLoader)) :=
  [ ("cifar_train", CIFAR10DataModule.train_dataloader);
    ("cifar_val", CIFAR10DataModule.val_dataloader);
    ("cifar_test", CIFAR10DataModule.test_dataloader) ].

(** Build the datamodule as the script does, set it up for every stage,
    take a loader and run through it once: the sizes of the batches. *)
Definition batch_lengths (loader : Globals -> M St DataLoader) (w : World)
    : option (list N) :=
  match (dm ;;; CIFAR10DataModule.setup None ;;; loader (module_constants w))
          (fresh w) with
  | Ok dl st =>
      match iterate dl (world st) with
      | Ok batches _ => Some (len <$> batches)
      | Raise _ _ => None
      end
  | Raise _ _ => None
  end.

(** The number of positions at which the predicted class is the label. *)
Definition correct_predictions (predicted labels : list N) : N :=
  len (filter (fun p => p.1 = p.2) (zip predicted labels)).

(** Scalars that remember the operation that produced them: the free
    reading of the two floating-point operations of the steps. *)
Inductive Traced : Type :=
| NllLoss (target : list N)
| TrueDivide (a b : N).

(** The transform pipeline every [CIFAR10DataModule] is built with. *)
Definition cifar_transform : Transform :=
  [ToTensor; Normalize [1#2; 1#2; 1#2]%Q [1#2; 1#2; 1#2]%Q].

(** The attributes of a freshly constructed [CIFAR10DataModule(data_dir)]. *)
Definition init_attrs (data_dir : string) : gmap string PyVal :=
  <["num_classes" := VInt 10]>
    (<["dims" := VTuple [3; 32; 32]%Z]>
       (<["transform" := VTransform cifar_transform]>
          (<["data_dir" := VStr data_dir]> ∅))).

(** A machine without network and with nothing on disk. *)
Definition offline_machine : World :=
  mkWorld ∅ false ∅ false
          (fun train => if train then 50000 else 10000)
          (fun _ n => range n) 0.

(** A machine whose copy of the training data has 60000 elements, as the
    dataset of the commented-out adapter has. *)
Definition other_dataset : World :=
  mkWorld ∅ false {["./"]} false
          (fun train => if train then 60000 else 10000)
          (fun _ n => range n) 0.

(** ** The last statements of the script (lines 205-212) *)





(** * Properties *)

(** ** Lists, ranges and slices *)

Lemma len_app {A : Type} (l k : list A) : len (l ++ k) = len l + len k.
Proof. unfold len. rewrite length_app. lia. Qed.

Lemma len_nil {A : Type} : len (@nil A) = 0.
Proof. reflexivity. Qed.

Lemma length_range_from (start : N) (count : nat) :
  length (range_from start count) = count.
Proof.
  revert start. induction count as [|c IH]; intros start; simpl.
  - reflexivity.
  - now rewrite IH.
Qed.

Lemma elem_of_range_from (x start : N) (count : nat) :
  x ∈ range_from start count <-> start <= x < start + N.of_nat count.
Proof.
  revert start. induction count as [|c IH]; intros start; simpl.
  - rewrite elem_of_nil. lia.
  - rewrite elem_of_cons, IH. lia.
Qed.

Lemma NoDup_range_from (start : N) (count : nat) :
  NoDup (range_from start count).
Proof.
  revert start. induction count as [|c IH]; intros start; simpl.
  - constructor.
  - constructor; [|apply IH].
    rewrite elem_of_range_from. lia.
Qed.

Lemma lookup_range_from (start : N) (count i : nat) :
  (i < count)%nat -> range_from start count !! i = Some (start + N.of_nat i).
Proof.
  revert start i. induction count as [|c IH]; intros start i Hi; [lia|].
  destruct i as [|i]; simpl.
  - f_equal. lia.
  - rewrite IH by lia. f_equal. lia.
Qed.

Lemma len_range (n : N) : len (range n) = n.
Proof. unfold len, range. rewrite length_range_from. lia. Qed.

Lemma elem_of_range (x n : N) : x ∈ range n <-> x < n.
Proof. unfold range. rewrite elem_of_range_from. lia. Qed.

Lemma NoDup_range (n : N) : NoDup (range n).
Proof. apply NoDup_range_from. Qed.

Lemma slice_app {A : Type} (l : list A) (a b c : N) :
  a <= b -> b <= c -> slice l a b ++ slice l b c = slice l a c.
Proof.
  intros Hab Hbc. unfold slice.
  replace (N.to_nat b) with (N.to_nat a + N.to_nat (b - a))%nat by lia.
  rewrite <- drop_drop, take_take_drop. f_equal. lia.
Qed.

Lemma slice_nil {A : Type} (l : list A) (a : N) : slice l a a = [].
Proof. unfold slice. rewrite N.sub_diag. apply take_0. Qed.

Lemma slice_all {A : Type} (l : list A) : slice l 0 (len l) = l.
Proof.
  unfold slice, len. rewrite N.sub_0_r, Nat2N.id. simpl.
  now rewrite take_ge.
Qed.

Lemma len_slice {A : Type} (l : list A) (a b : N) :
  a <= b -> b <= len l -> len (slice l a b) = b - a.
Proof.
  intros Hab Hb. unfold slice, len in *.
  rewrite length_take, length_drop. lia.
Qed.

(** ** The monad *)

Lemma bind_Ok {S A B : Type} (m : M S A) (k : A -> M S B) (s s' : S) (a : A) :
  m s = Ok a s' -> bind m k s = k a s'.
Proof. intros H. unfold bind. now rewrite H. Qed.

Lemma bind_Raise {S A B : Type} (m : M S A) (k : A -> M S B) (s s' : S) (e : Exn) :
  m s = Raise e s' -> bind m k s = Raise e s'.
Proof. intros H. unfold bind. now rewrite H. Qed.

Lemma bind_assoc {S A B C : Type} (m : M S A) (k : A -> M S B)
    (k' : B -> M S C) (s : S) :
  bind (bind m k) k' s = bind m (fun a => bind (k a) k') s.
Proof. unfold bind. now destruct (m s). Qed.

Lemma getattr_Ok (name : string) (v : PyVal) (st : St) :
  self st !! name = Some v -> getattr name st = Ok v st.
Proof. intros H. unfold getattr. now rewrite H. Qed.

Lemma in_world_Ok {A : Type} (m : M World A) (st : St) (a : A) (w : World) :
  m (world st) = Ok a w -> in_world m st = Ok a (mkSt (self st) w).
Proof. intros H. unfold in_world. now rewrite H. Qed.

(** ** The library calls *)

(** Loading an installed dataset succeeds and leaves the world alone. *)
Lemma CIFAR10_load (root : string) (train : bool) (tf : option Transform)
    (w : World) :
  root ∈ fs w ->
  CIFAR10 root train tf false w = Ok (mkDataset root train tf (cifar_len w train)) w.
Proof.
  intros Hin. unfold CIFAR10, bind, ret, get.
  now rewrite decide_True.
Qed.

(** Downloading is a no-op when a verified copy is there, and otherwise
    fetches the archive, which adds [root] to the disk. *)
Lemma CIFAR10_download_present (root : string) (train : bool)
    (tf : option Transform) (w : World) :
  root ∈ fs w ->
  CIFAR10 root train tf true w = Ok (mkDataset root train tf (cifar_len w train)) w.
Proof.
  intros Hin. unfold CIFAR10, bind, ret, get. cbv beta iota.
  rewrite decide_True by assumption. cbv beta iota.
  now rewrite decide_True by assumption.
Qed.

Lemma CIFAR10_download_fetch (root : string) (train : bool)
    (tf : option Transform) (w : World) :
  root ∉ fs w -> network w = true ->
  CIFAR10 root train tf true w
  = Ok (mkDataset root train tf (cifar_len w train)) (set_fs ({[root]} ∪ fs w) w).
Proof.
  intros Hout Hnet. unfold CIFAR10, bind, ret, get, modify. cbv beta iota.
  rewrite decide_False by assumption. rewrite Hnet. cbv beta iota.
  cbn [fs set_fs].
  now rewrite decide_True by set_solver.
Qed.

Lemma random_split_Ok (d : Dataset) (lengths : list N) (w : World) :
  sum lengths = ds_len d ->
  random_split d lengths w
  = Ok (subsets_at d (rand w (draws w) (sum lengths)) 0 lengths)
       (set_draws (S (draws w)) w).
Proof.
  intros H. unfold random_split. rewrite H, N.eqb_refl. simpl.
  unfold randperm, bind, get, modify, ret. now rewrite <- H.
Qed.

Lemma random_split_Raise (d : Dataset) (lengths : list N) (w : World) :
  sum lengths <> ds_len d ->
  exists msg, random_split d lengths w = Raise (ValueError msg) w.
Proof.
  intros H. unfold random_split.
  apply N.eqb_neq in H. rewrite H. simpl. eexists. reflexivity.
Qed.

(** The subsets cut out by [random_split] are consecutive slices: glued
    together they give back the permuted indices, and their sizes are the
    requested ones. *)
Lemma subsets_at_spec (d : Dataset) (indices : list N) (lengths : list N)
    (offset : N) :
  offset + sum lengths <= len indices ->
  concat (sub_indices <$> subsets_at d indices offset lengths)
    = slice indices offset (offset + sum lengths)
  /\ (fun s => len (sub_indices s)) <$> subsets_at d indices offset lengths
     = lengths
  /\ Forall (fun s => sub_dataset s = d) (subsets_at d indices offset lengths).
Proof.
  revert offset. induction lengths as [|n rest IH]; intros offset Hle.
  - simpl. rewrite N.add_0_r, slice_nil. auto.
  - cbn [subsets_at sum foldr fmap list_fmap concat sub_indices] in *.
    fold (sum rest) in *.
    destruct (IH (offset + n)) as (IH1 & IH2 & IH3); [lia|].
    change (list_fmap _ _ ?f ?l) with (f <$> l) in *.
    split; [|split].
    + rewrite IH1. replace (offset + n - n) with offset by lia.
      rewrite slice_app by lia. f_equal. lia.
    + rewrite IH2. f_equal. rewrite len_slice; lia.
    + constructor; [reflexivity|assumption].
Qed.

(** ** CIFAR10DataModule.setup *)

Lemma bind_ret {S A B : Type} (a : A) (k : A -> M S B) (s : S) :
  bind (ret a) k s = k a s.
Proof. reflexivity. Qed.

Lemma setup_blocks (stage : option string) :
  CIFAR10DataModule.setup stage
  = ((if stage_is stage "fit" then setup_fit else ret tt) ;;;
     (if stage_is stage "test" then setup_test else ret tt)).
Proof. reflexivity. Qed.

Lemma subsets_at_split (d : Dataset) (indices : list N) :
  subsets_at d indices 0 CIFAR10DataModule.split_lengths
  = [mkSubset d (slice indices 0 45000); mkSubset d (slice indices 45000 50000)].
Proof. reflexivity. Qed.

Lemma setup_fit_Ok (attrs : gmap string PyVal) (w : World) (root : string)
    (tf : Transform) :
  attrs !! "data_dir" = Some (VStr root) ->
  attrs !! "transform" = Some (VTransform tf) ->
  root ∈ fs w ->
  cifar_len w true = 50000 ->
  setup_fit (mkSt attrs w)
  = Ok tt (mkSt (fit_attrs root tf w attrs) (set_draws (S (draws w)) w)).
Proof.
  intros Hdir Htf Hin Hlen. unfold setup_fit.
  erewrite bind_Ok; [|apply getattr_Ok; exact Hdir].
  cbn [as_str]. rewrite bind_ret.
  erewrite bind_Ok; [|apply getattr_Ok; exact Htf].
  cbn [as_transform]. rewrite bind_ret.
  erewrite bind_Ok; [|apply in_world_Ok; apply CIFAR10_load; exact Hin].
  erewrite bind_Ok;
    [|apply in_world_Ok; apply random_split_Ok; symmetry; exact Hlen].
  rewrite subsets_at_split.
  reflexivity.
Qed.

Lemma setup_test_Ok (attrs : gmap string PyVal) (w : World) (root : string)
    (tf : Transform) :
  attrs !! "data_dir" = Some (VStr root) ->
  attrs !! "transform" = Some (VTransform tf) ->
  root ∈ fs w ->
  setup_test (mkSt attrs w) = Ok tt (mkSt (test_attrs root tf w attrs) w).
Proof.
  intros Hdir Htf Hin. unfold setup_test.
  erewrite bind_Ok; [|apply getattr_Ok; exact Hdir].
  cbn [as_str]. rewrite bind_ret.
  erewrite bind_Ok; [|apply getattr_Ok; exact Htf].
  cbn [as_transform]. rewrite bind_ret.
  erewrite bind_Ok; [|apply in_world_Ok; apply CIFAR10_load; exact Hin].
  reflexivity.
Qed.

Lemma setup_stage_fit (attrs : gmap string PyVal) (w : World) (root : string)
    (tf : Transform) :
  attrs !! "data_dir" = Some (VStr root) ->
  attrs !! "transform" = Some (VTransform tf) ->
  root ∈ fs w ->
  cifar_len w true = 50000 ->
  CIFAR10DataModule.setup (Some "fit") (mkSt attrs w)
  = Ok tt (mkSt (fit_attrs root tf w attrs) (set_draws (S (draws w)) w)).
Proof.
  intros Hdir Htf Hin Hlen. rewrite setup_blocks.
  change (stage_is (Some "fit") "fit") with true.
  change (stage_is (Some "fit") "test") with false. cbv iota.
  erewrite bind_Ok; [|apply setup_fit_Ok; eassumption].
  reflexivity.
Qed.

Lemma setup_stage_test (attrs : gmap string PyVal) (w : World) (root : string)
    (tf : Transform) :
  attrs !! "data_dir" = Some (VStr root) ->
  attrs !! "transform" = Some (VTransform tf) ->
  root ∈ fs w ->
  CIFAR10DataModule.setup (Some "test") (mkSt attrs w)
  = Ok tt (mkSt (test_attrs root tf w attrs) w).
Proof.
  intros Hdir Htf Hin. rewrite setup_blocks.
  change (stage_is (Some "test") "fit") with false.
  change (stage_is (Some "test") "test") with true. cbv iota.
  rewrite bind_ret.
  apply setup_test_Ok; assumption.
Qed.

Lemma fit_attrs_frame (root : string) (tf : Transform) (w : World)
    (attrs : gmap string PyVal) (name : string) :
  name <> "cifar_train" -> name <> "cifar_val" ->
  fit_attrs root tf w attrs !! name = attrs !! name.
Proof.
  intros H1 H2. unfold fit_attrs. cbv zeta.
  rewrite lookup_insert_ne by congruence.
  now rewrite lookup_insert_ne by congruence.
Qed.

Lemma test_attrs_frame (root : string) (tf : Transform) (w : World)
    (attrs : gmap string PyVal) (name : string) :
  name <> "cifar_test" ->
  test_attrs root tf w attrs !! name = attrs !! name.
Proof.
  intros H. unfold test_attrs. now rewrite lookup_insert_ne by congruence.
Qed.

Lemma setup_stage_None (attrs : gmap string PyVal) (w : World) (root : string)
    (tf : Transform) :
  attrs !! "data_dir" = Some (VStr root) ->
  attrs !! "transform" = Some (VTransform tf) ->
  root ∈ fs w ->
  cifar_len w true = 50000 ->
  CIFAR10DataModule.setup None (mkSt attrs w)
  = Ok tt (mkSt (test_attrs root tf w (fit_attrs root tf w attrs))
                (set_draws (S (draws w)) w)).
Proof.
  intros Hdir Htf Hin Hlen. rewrite setup_blocks.
  change (stage_is None "fit") with true.
  change (stage_is None "test") with true. cbv iota.
  erewrite bind_Ok; [|apply setup_fit_Ok; eassumption].
  rewrite (setup_test_Ok _ _ root tf).
  - reflexivity.
  - rewrite fit_attrs_frame by discriminate. exact Hdir.
  - rewrite fit_attrs_frame by discriminate. exact Htf.
  - exact Hin.
Qed.

(** Stages other than ['fit'] and ['test'] touch nothing. *)
Lemma setup_stage_other (s : string) (st : St) :
  s <> "fit" -> s <> "test" ->
  CIFAR10DataModule.setup (Some s) st = Ok tt st.
Proof.
  intros Hfit Htest. rewrite setup_blocks. unfold stage_is.
  apply String.eqb_neq in Hfit, Htest. rewrite Hfit, Htest.
  reflexivity.
Qed.

(** What a permutation of [range 50000] gives when cut at 45000. *)
Lemma split_facts (indices : list N) :
  indices ≡ₚ range 50000 ->
  len (slice indices 0 45000) = 45000
  /\ len (slice indices 45000 50000) = 5000
  /\ (forall i, i ∈ slice indices 0 45000 -> i ∉ slice indices 45000 50000)
  /\ slice indices 0 45000 ++ slice indices 45000 50000 ≡ₚ range 50000.
Proof.
  intros Hperm.
  assert (Hlen : len indices = 50000).
  { unfold len. rewrite Hperm. apply len_range. }
  assert (Hall : slice indices 0 45000 ++ slice indices 45000 50000 = indices).
  { rewrite slice_app by lia. rewrite <- Hlen. apply slice_all. }
  assert (Hnd : NoDup indices).
  { rewrite Hperm. apply NoDup_range. }
  split; [rewrite len_slice; lia|].
  split; [rewrite len_slice; lia|].
  split.
  - rewrite <- Hall in Hnd. apply NoDup_app in Hnd. tauto.
  - now rewrite Hall.
Qed.



(** C9: [setup] is selective in its stage.  With ['test'] it assigns
    [cifar_test] and nothing else; with ['fit'] it assigns [cifar_train] and
    [cifar_val] and nothing else, so [cifar_test] stays as it was
    (unassigned on a fresh object); with [None] it assigns the three of them
    and nothing else. *)
Theorem setup_is_stage_selective (attrs : gmap string PyVal) (w : World)
    (root : string) (tf : Transform) :
  attrs !! "data_dir" = Some (VStr root) ->
  attrs !! "transform" = Some (VTransform tf) ->
  root ∈ fs w ->
  (exists st',
      CIFAR10DataModule.setup (Some "test") (mkSt attrs w) = Ok tt st'
      /\ is_Some (self st' !! "cifar_test")
      /\ self st' !! "cifar_train" = attrs !! "cifar_train"
      /\ self st' !! "cifar_val" = attrs !! "cifar_val"
      /\ forall name, name <> "cifar_test" -> self st' !! name = attrs !! name)
  /\ (cifar_len w true = 50000 ->
      (exists st',
          CIFAR10DataModule.setup (Some "fit") (mkSt attrs w) = Ok tt st'
          /\ is_Some (self st' !! "cifar_train")
          /\ is_Some (self st' !! "cifar_val")
          /\ self st' !! "cifar_test" = attrs !! "cifar_test"
          /\ forall name, name <> "cifar_train" -> name <> "cifar_val" ->
                          self st' !! name = attrs !! name)
      /\ (exists st',
          CIFAR10DataModule.setup None (mkSt attrs w) = Ok tt st'
          /\ is_Some (self st' !! "cifar_train")
          /\ is_Some (self st' !! "cifar_val")
          /\ is_Some (self st' !! "cifar_test")
          /\ forall name, name <> "cifar_train" -> name <> "cifar_val" ->
                          name <> "cifar_test" ->
                          self st' !! name = attrs !! name)).
Proof.
  intros Hdir Htf Hin. split; [|intros Hlen; split].
  - eexists. split; [eapply setup_stage_test; eassumption|]. cbn [self].
    split; [|split; [|split]].
    + unfold test_attrs. rewrite lookup_insert_eq. eauto.
    + now apply test_attrs_frame.
    + now apply test_attrs_frame.
    + intros name Hname. now apply test_attrs_frame.
  - eexists. split; [eapply setup_stage_fit; eassumption|]. cbn [self].
    split; [|split; [|split]].
    + unfold fit_attrs. cbv zeta.
      rewrite lookup_insert_ne by discriminate. rewrite lookup_insert_eq. eauto.
    + unfold fit_attrs. cbv zeta. rewrite lookup_insert_eq. eauto.
    + now apply fit_attrs_frame.
    + intros name H1 H2. now apply fit_attrs_frame.
  - eexists. split; [eapply setup_stage_None; eassumption|]. cbn [self].
    split; [|split; [|split]].
    + rewrite test_attrs_frame by discriminate. unfold fit_attrs. cbv zeta.
      rewrite lookup_insert_ne by discriminate. rewrite lookup_insert_eq. eauto.
    + rewrite test_attrs_frame by discriminate. unfold fit_attrs. cbv zeta.
      rewrite lookup_insert_eq. eauto.
    + unfold test_attrs. rewrite lookup_insert_eq. eauto.
    + intros name H1 H2 H3.
      rewrite test_attrs_frame by assumption. now apply fit_attrs_frame.
Qed.

Lemma setup_is_stage_selective_witness :
  (exists st',
      CIFAR10DataModule.setup (Some "test") (mkSt dm_attrs local_copy) = Ok tt st'
      /\ is_Some (self st' !! "cifar_test")
      /\ self st' !! "cifar_train" = None
      /\ self st' !! "cifar_val" = None)
  /\ (exists st',
      CIFAR10DataModule.setup (Some "fit") (mkSt dm_attrs local_copy) = Ok tt st'
      /\ is_Some (self st' !! "cifar_train")
      /\ is_Some (self st' !! "cifar_val")
      /\ self st' !! "cifar_test" = None)
  /\ (exists st',
      CIFAR10DataModule.setup None (mkSt dm_attrs local_copy) = Ok tt st'
      /\ is_Some (self st' !! "cifar_train")
      /\ is_Some (self st' !! "cifar_val")
      /\ is_Some (self st' !! "cifar_test")).
Proof.
  destruct (setup_is_stage_selective dm_attrs local_copy "./"
              [ToTensor; Normalize [1#2; 1#2; 1#2]%Q [1#2; 1#2; 1#2]%Q])
    as [(st1 & H1 & H1a & H1b & H1c & _) Hrest].
  - reflexivity.
  - reflexivity.
  - change ("./" ∈ ({["./"]} : gset string)). now apply elem_of_singleton_2.
  - destruct Hrest as [(st2 & H2 & H2a & H2b & H2c & _)
                       (st3 & H3 & H3a & H3b & H3c & _)]; [reflexivity|].
    split; [|split].
    + exists st1. repeat split; assumption.
    + exists st2. repeat split; assumption.
    + exists st3. repeat split; assumption.
Defined.

(** ** Methods that assign nothing *)

Lemma assigns_nothing_ret {A : Type} (a : A) : assigns_nothing (ret a).
Proof. intros st. reflexivity. Qed.

Lemma assigns_nothing_raise {A : Type} (e : Exn) :
  assigns_nothing (@raise St A e).
Proof. intros st. reflexivity. Qed.

Lemma assigns_nothing_getattr (name : string) : assigns_nothing (getattr name).
Proof. intros st. unfold getattr. now destruct (self st !! name). Qed.

Lemma assigns_nothing_as_str (v : PyVal) : assigns_nothing (as_str v).
Proof. intros st. now destruct v. Qed.

Lemma assigns_nothing_in_world {A : Type} (m : M World A) :
  assigns_nothing (in_world m).
Proof. intros st. unfold in_world. now destruct (m (world st)). Qed.

Lemma assigns_nothing_bind {A B : Type} (m : M St A) (k : A -> M St B) :
  assigns_nothing m -> (forall a, assigns_nothing (k a)) ->
  assigns_nothing (bind m k).
Proof.
  intros Hm Hk st. unfold bind. specialize (Hm st).
  destruct (m st) as [a st'|e st']; simpl in *.
  - now rewrite Hk.
  - assumption.
Qed.

Create HintDb frame discriminated.

#[export] Hint Resolve assigns_nothing_ret assigns_nothing_raise
  assigns_nothing_getattr assigns_nothing_as_str assigns_nothing_in_world
  : frame.

Ltac frame :=
  repeat (apply assigns_nothing_bind; [|intros ?]); auto with frame.

(** C8: [prepare_data] downloads and assigns nothing.  Whatever the state
    and however the call ends, the attributes of the object are those it
    started with; and when the data is on disk or can be fetched, the call
    returns with the archive under [data_dir], from which both the train and
    the test portion load. *)
Theorem prepare_data_assigns_nothing :
  (forall st, self (final (CIFAR10DataModule.prepare_data st)) = self st)
  /\ (forall st root,
        self st !! "data_dir" = Some (VStr root) ->
        root ∈ fs (world st) \/ network (world st) = true ->
        exists w',
          CIFAR10DataModule.prepare_data st = Ok tt (mkSt (self st) w')
          /\ fs w' = {[root]} ∪ fs (world st)
          /\ forall train tf,
               CIFAR10 root train tf false w'
               = Ok (mkDataset root train tf (cifar_len w' train)) w').
Proof.
  split.
  - change (assigns_nothing CIFAR10DataModule.prepare_data).
    unfold CIFAR10DataModule.prepare_data. frame.
  - intros [attrs w] root Hdir Hhave. cbn [self world] in *.
    unfold CIFAR10DataModule.prepare_data.
    erewrite bind_Ok; [|apply getattr_Ok; exact Hdir].
    cbn [as_str]. rewrite bind_ret.
    destruct (decide (root ∈ fs w)) as [Hin|Hout].
    + exists w.
      erewrite bind_Ok;
        [|apply in_world_Ok; apply CIFAR10_download_present; exact Hin].
      erewrite bind_Ok; [|apply getattr_Ok; exact Hdir].
      cbn [as_str]. rewrite bind_ret.
      erewrite bind_Ok;
        [|apply in_world_Ok; apply CIFAR10_download_present; exact Hin].
      split; [reflexivity|]. cbn [world]. split.
      { symmetry. apply subseteq_union_1_L, singleton_subseteq_l, Hin. }
      intros train tf. now apply CIFAR10_load.
    + destruct Hhave as [Hin|Hnet]; [exfalso; exact (Hout Hin)|].
      exists (set_fs ({[root]} ∪ fs w) w).
      assert (Hin' : root ∈ fs (set_fs ({[root]} ∪ fs w) w)).
      { cbn [fs set_fs]. set_solver. }
      erewrite bind_Ok;
        [|apply in_world_Ok; apply CIFAR10_download_fetch; assumption].
      erewrite bind_Ok; [|apply getattr_Ok; exact Hdir].
      cbn [as_str]. rewrite bind_ret.
      erewrite bind_Ok;
        [|apply in_world_Ok; apply CIFAR10_download_present; exact Hin'].
      split; [reflexivity|]. split; [reflexivity|].
      intros train tf. now apply CIFAR10_load.
Qed.

Lemma prepare_data_assigns_nothing_witness :
  exists w',
    CIFAR10DataModule.prepare_data (mkSt dm_attrs online_machine)
    = Ok tt (mkSt dm_attrs w')
    /\ fs w' = {["./"]} ∪ ∅
    /\ forall train tf,
         CIFAR10 "./" train tf false w'
         = Ok (mkDataset "./" train tf (cifar_len w' train)) w'.
Proof.
  apply (proj2 prepare_data_assigns_nothing (mkSt dm_attrs online_machine) "./").
  - reflexivity.
  - right. reflexivity.
Defined.

(** ** Batching *)

Lemma concat_fmap_fmap {A B : Type} (g : A -> B) (r : list (list A)) :
  concat ((fun b : list A => g <$> b) <$> r) = g <$> concat r.
Proof.
  induction r as [|b r IH]; simpl; [reflexivity|].
  now rewrite fmap_app, <- IH.
Qed.

Lemma elem_of_concat {A : Type} (x : A) (b : list A) (r : list (list A)) :
  x ∈ b -> b ∈ r -> x ∈ concat r.
Proof.
  intros Hx Hb. induction r as [|b' r IH]; simpl.
  - now apply elem_of_nil in Hb.
  - apply elem_of_app. apply elem_of_cons in Hb as [->|Hb]; auto.
Qed.

Lemma len_zero_nil {A : Type} (l : list A) : len l = 0 -> l = [].
Proof. destruct l; [reflexivity|]. unfold len. simpl. lia. Qed.

(** Without [drop_last] the batch sampler loses nothing, yields no empty
    batch and no batch above the batch size, and only the last batch can be
    short. *)
Lemma batch_sampler_spec (bs : N) (sampler batch : list N) :
  len batch < bs ->
  concat (batch_sampler bs false batch sampler) = batch ++ sampler
  /\ Forall (fun b => 0 < len b <= bs) (batch_sampler bs false batch sampler)
  /\ (forall i b,
        batch_sampler bs false batch sampler !! i = Some b ->
        (S i < length (batch_sampler bs false batch sampler))%nat ->
        len b = bs).
Proof.
  revert batch. induction sampler as [|idx rest IH]; intros batch Hlt.
  - cbn [batch_sampler negb]. rewrite andb_true_r.
    destruct (0 <? len batch) eqn:Hpos.
    + apply N.ltb_lt in Hpos. simpl. rewrite !app_nil_r.
      split; [reflexivity|]. split.
      * constructor; [lia|constructor].
      * intros i b _ Hi. simpl in Hi. lia.
    + apply N.ltb_ge in Hpos.
      rewrite (len_zero_nil batch) by lia.
      split; [reflexivity|]. split; [constructor|].
      intros i b Hb. now rewrite lookup_nil in Hb.
  - cbn [batch_sampler].
    assert (Hlen : len (batch ++ [idx]) = len batch + 1).
    { rewrite len_app. reflexivity. }
    destruct (len (batch ++ [idx]) =? bs) eqn:Hfull.
    + apply N.eqb_eq in Hfull.
      destruct (IH []) as (IH1 & IH2 & IH3); [rewrite len_nil; lia|].
      split; [|split].
      * simpl. rewrite IH1. simpl. now rewrite <- app_assoc.
      * constructor; [lia|assumption].
      * intros [|i] b Hb Hi; simpl in Hb, Hi.
        -- injection Hb as <-. assumption.
        -- apply (IH3 i b Hb). lia.
    + apply N.eqb_neq in Hfull.
      destruct (IH (batch ++ [idx])) as (IH1 & IH2 & IH3); [lia|].
      split; [|split]; try assumption.
      rewrite IH1. now rewrite <- app_assoc.
Qed.

Lemma mapM_total {A B : Type} (f : A -> option B) (g : A -> B) (l : list A) :
  Forall (fun x => f x = Some (g x)) l -> mapM f l = Some (g <$> l).
Proof.
  intros H. apply mapM_Some_2, Forall2_fmap_r, Forall_Forall2_diag, H.
Qed.

(** Reading a list back through its positions gives the list. *)
Lemma fmap_lookup_range (l : list N) :
  (fun j => default 0 (l !! N.to_nat j)) <$> range (len l) = l.
Proof.
  apply list_eq. intros i. rewrite list_lookup_fmap. unfold range, len.
  rewrite Nat2N.id.
  destruct (decide (i < length l)%nat) as [Hi|Hi].
  - rewrite lookup_range_from by assumption. simpl.
    rewrite N.add_0_l, Nat2N.id.
    destruct (lookup_lt_is_Some_2 l i Hi) as [x Hx]. now rewrite Hx.
  - rewrite (proj2 (lookup_ge_None l i)) by lia.
    rewrite (proj2 (lookup_ge_None _ i)); [reflexivity|].
    rewrite length_range_from. lia.
Qed.

(** Every position below the length can be fetched, and what is fetched at
    the positions in order are the samples in order. *)
Lemma getitem_total (v : PyVal) (n : N) :
  py_len v = Some n -> well_indexed v ->
  exists g : N -> Sample,
    (forall j, j < n -> py_getitem v j = Some (g j))
    /\ g <$> range n = samples_of v.
Proof.
  destruct v as [| | | |d|s]; try discriminate; intros [= <-] Hwi.
  - exists (fun j => (d, j)). split; [|reflexivity].
    intros j Hj. cbn [py_getitem]. unfold dataset_getitem.
    apply N.ltb_lt in Hj. now rewrite Hj.
  - exists (fun j => (sub_dataset s, default 0 (sub_indices s !! N.to_nat j))).
    split.
    + intros j Hj. cbn [py_getitem]. unfold subset_getitem.
      destruct (lookup_lt_is_Some_2 (sub_indices s) (N.to_nat j)) as [i Hi].
      { unfold len in Hj. lia. }
      rewrite Hi. simpl. unfold dataset_getitem.
      cbn [well_indexed] in Hwi.
      rewrite Forall_lookup in Hwi. specialize (Hwi _ _ Hi).
      apply N.ltb_lt in Hwi. now rewrite Hwi.
    + cbn [samples_of].
      rewrite <- (fmap_lookup_range (sub_indices s)) at 2.
      now rewrite <- list_fmap_compose.
Qed.

(** A loader that does not shuffle and keeps its last batch yields the
    same batches on every pass, whatever the state of the random generator:
    the samples of its dataset in index order, cut into batches of
    [batch_size], the last one possibly shorter. *)
Lemma iterate_sequential (dl : DataLoader) :
  shuffle dl = false -> drop_last dl = false -> 0 < batch_size dl ->
  is_Some (py_len (dl_dataset dl)) -> well_indexed (dl_dataset dl) ->
  exists batches,
    (forall w, iterate dl w = Ok batches w)
    /\ concat batches = samples_of (dl_dataset dl)
    /\ Forall (fun b => 0 < len b <= batch_size dl) batches
    /\ (forall i b, batches !! i = Some b -> (S i < length batches)%nat ->
                    len b = batch_size dl).
Proof.
  intros Hsh Hdrop Hbs [n Hn] Hwi.
  destruct (getitem_total _ _ Hn Hwi) as (g & Hg & Hsamples).
  destruct (batch_sampler_spec (batch_size dl) (range n) [])
    as (Hcat & Hsizes & Hfull); [rewrite len_nil; assumption|].
  set (r := batch_sampler (batch_size dl) false [] (range n)) in *.
  exists ((fun b : list N => g <$> b) <$> r). split; [|split; [|split]].
  - intros w. unfold iterate. rewrite Hn, Hsh, Hdrop. rewrite bind_ret.
    fold r. rewrite (mapM_total _ (fun b : list N => g <$> b)); [reflexivity|].
    apply Forall_forall. intros b Hb. apply mapM_total.
    apply Forall_forall. intros j Hj. apply Hg.
    apply elem_of_range. rewrite <- (app_nil_l (range n)), <- Hcat.
    now apply elem_of_concat with b.
  - rewrite concat_fmap_fmap, Hcat. exact Hsamples.
  - apply Forall_fmap. eapply Forall_impl; [exact Hsizes|].
    intros b Hb. unfold compose, len in *. now rewrite length_fmap.
  - intros i b Hb Hi. rewrite length_fmap in Hi.
    apply list_lookup_fmap_Some in Hb as (b0 & -> & Hb0).
    unfold len. rewrite length_fmap. apply (Hfull i b0 Hb0 Hi).
Qed.

(** ** The three loaders of the datamodule *)

Lemma DataLoader_init_Ok {S : Type} (v : PyVal) (bs : N) (s : S) :
  bs <> 0 ->
  DataLoader_init v (Some bs) None None s = Ok (mkDataLoader v bs false false) s.
Proof.
  intros Hbs. unfold DataLoader_init. simpl.
  apply N.eqb_neq in Hbs. now rewrite Hbs.
Qed.

Lemma BATCH_SIZE_pos (w : World) : 0 < BATCH_SIZE (module_constants w).
Proof. unfold module_constants. cbn [BATCH_SIZE]. destruct (cuda w); lia. Qed.

Lemma loader_Ok (name : string) (loader : Globals -> M St DataLoader)
    (g : Globals) (st : St) (v : PyVal) :
  (name, loader) ∈ loaders ->
  self st !! name = Some v ->
  BATCH_SIZE g <> 0 ->
  loader g st = Ok (mkDataLoader v (BATCH_SIZE g) false false) st.
Proof.
  intros Hin Hv Hbs. unfold loaders in Hin.
  rewrite !elem_of_cons, elem_of_nil in Hin.
  destruct Hin as [[= -> ->]|[[= -> ->]|[[= -> ->]|[]]]].
  - unfold CIFAR10DataModule.train_dataloader.
    erewrite bind_Ok; [|apply getattr_Ok; exact Hv].
    now apply DataLoader_init_Ok.
  - unfold CIFAR10DataModule.val_dataloader.
    erewrite bind_Ok; [|apply getattr_Ok; exact Hv].
    now apply DataLoader_init_Ok.
  - unfold CIFAR10DataModule.test_dataloader.
    erewrite bind_Ok; [|apply getattr_Ok; exact Hv].
    now apply DataLoader_init_Ok.
Qed.

(** After [setup(None)] each of the three attributes holds a dataset whose
    indices are all valid. *)
Lemma datasets_after_setup (attrs : gmap string PyVal) (w : World)
    (root : string) (tf : Transform) (name : string)
    (loader : Globals -> M St DataLoader) :
  cifar_len w true = 50000 ->
  fair_generator w ->
  (name, loader) ∈ loaders ->
  exists v,
    test_attrs root tf w (fit_attrs root tf w attrs) !! name = Some v
    /\ is_Some (py_len v)
    /\ well_indexed v.
Proof.
  intros Hlen Hfair Hin.
  destruct (split_facts (rand w (draws w) 50000) (Hfair _ _))
    as (_ & _ & _ & Hperm).
  assert (Hrange : forall i,
             i ∈ slice (rand w (draws w) 50000) 0 45000
                 ++ slice (rand w (draws w) 50000) 45000 50000 ->
             i < cifar_len w true).
  { intros i Hi. rewrite Hperm in Hi. apply elem_of_range in Hi. lia. }
  unfold loaders in Hin. rewrite !elem_of_cons, elem_of_nil in Hin.
  destruct Hin as [[= -> ->]|[[= -> ->]|[[= -> ->]|[]]]].
  - eexists. split; [|split].
    + rewrite test_attrs_frame by discriminate. unfold fit_attrs. cbv zeta.
      rewrite lookup_insert_ne by discriminate. apply lookup_insert_eq.
    + cbn [py_len]. eauto.
    + cbn [well_indexed sub_dataset sub_indices ds_len].
      apply Forall_forall. intros i Hi. apply Hrange, elem_of_app. now left.
  - eexists. split; [|split].
    + rewrite test_attrs_frame by discriminate. unfold fit_attrs. cbv zeta.
      apply lookup_insert_eq.
    + cbn [py_len]. eauto.
    + cbn [well_indexed sub_dataset sub_indices ds_len].
      apply Forall_forall. intros i Hi. apply Hrange, elem_of_app. now right.
  - eexists. split; [|split].
    + unfold test_attrs. apply lookup_insert_eq.
    + cbn [py_len]. eauto.
    + exact I.
Qed.

(** C3, as the code has it: the batch size is one constant, 256 with a
    CUDA device and 64 without, and the three loaders all use it; a pass
    over a loader yields batches of at least one and at most that many
    samples, and every batch except the last has exactly that many. *)
Theorem batches_are_bounded_by_BATCH_SIZE (attrs : gmap string PyVal)
    (w : World) (root : string) (tf : Transform) :
  attrs !! "data_dir" = Some (VStr root) ->
  attrs !! "transform" = Some (VTransform tf) ->
  root ∈ fs w ->
  cifar_len w true = 50000 ->
  fair_generator w ->
  BATCH_SIZE (module_constants w) = (if cuda w then 256 else 64)
  /\ exists st',
      CIFAR10DataModule.setup None (mkSt attrs w) = Ok tt st'
      /\ forall name loader,
          (name, loader) ∈ loaders ->
          exists dl batches,
            loader (module_constants w) st' = Ok dl st'
            /\ batch_size dl = BATCH_SIZE (module_constants w)
            /\ (forall w1, iterate dl w1 = Ok batches w1)
            /\ concat batches = samples_of (dl_dataset dl)
            /\ Forall (fun b => 0 < len b <= BATCH_SIZE (module_constants w))
                      batches
            /\ (forall i b,
                  batches !! i = Some b -> (S i < length batches)%nat ->
                  len b = BATCH_SIZE (module_constants w)).
Proof.
  intros Hdir Htf Hin Hlen Hfair. split; [reflexivity|].
  pose proof (BATCH_SIZE_pos w) as Hpos.
  eexists. split; [eapply setup_stage_None; eassumption|].
  intros name loader Hl.
  destruct (datasets_after_setup attrs w root tf name loader Hlen Hfair Hl)
    as (v & Hv & Hsized & Hwi).
  set (dl := mkDataLoader v (BATCH_SIZE (module_constants w)) false false).
  destruct (iterate_sequential dl) as (batches & Hiter & Hcat & Hsz & Hfull);
    try reflexivity; try assumption.
  exists dl, batches. split; [|split; [reflexivity|]].
  - apply (loader_Ok name); [assumption|exact Hv|lia].
  - repeat split; assumption.
Qed.

Lemma batches_are_bounded_by_BATCH_SIZE_witness :
  BATCH_SIZE (module_constants local_copy) = 64
  /\ exists st',
      CIFAR10DataModule.setup None (mkSt dm_attrs local_copy) = Ok tt st'
      /\ forall name loader,
          (name, loader) ∈ loaders ->
          exists dl batches,
            loader (module_constants local_copy) st' = Ok dl st'
            /\ batch_size dl = BATCH_SIZE (module_constants local_copy)
            /\ (forall w1, iterate dl w1 = Ok batches w1)
            /\ concat batches = samples_of (dl_dataset dl)
            /\ Forall (fun b => 0 < len b <= BATCH_SIZE (module_constants local_copy))
                      batches
            /\ (forall i b,
                  batches !! i = Some b -> (S i < length batches)%nat ->
                  len b = BATCH_SIZE (module_constants local_copy)).
Proof.
  apply (batches_are_bounded_by_BATCH_SIZE dm_attrs local_copy "./"
           [ToTensor; Normalize [1#2; 1#2; 1#2]%Q [1#2; 1#2; 1#2]%Q]).
  - reflexivity.
  - reflexivity.
  - change ("./" ∈ ({["./"]} : gset string)). now apply elem_of_singleton_2.
  - reflexivity.
  - intros k n. reflexivity.
Defined.

(** C3, as the claim has it, fails: on a machine without GPU the
    validation loader cuts its 5000 samples into 78 batches of 64 and a last
    batch of 8. *)
Lemma val_loader_last_batch_is_short :
  exists lens,
    batch_lengths CIFAR10DataModule.val_dataloader local_copy = Some lens
    /\ BATCH_SIZE (module_constants local_copy) = 64
    /\ last lens = Some 8
    /\ ~ Forall (fun n => n = BATCH_SIZE (module_constants local_copy)) lens.
Proof.
  exists (replicate 78 64 ++ [8]).
  split; [vm_compute; reflexivity|].
  split; [reflexivity|]. split; [reflexivity|].
  rewrite Forall_app, Forall_singleton. intros [_ H]. discriminate H.
Qed.

(** C10: none of the three loaders shuffles.  Each one reads its
    attribute, and every pass over it, whatever the state of the random
    generator, yields the same batches: the samples of the subset in
    index order. *)
Theorem loaders_do_not_shuffle (attrs : gmap string PyVal)
    (w : World) (root : string) (tf : Transform) :
  attrs !! "data_dir" = Some (VStr root) ->
  attrs !! "transform" = Some (VTransform tf) ->
  root ∈ fs w ->
  cifar_len w true = 50000 ->
  fair_generator w ->
  exists st',
    CIFAR10DataModule.setup None (mkSt attrs w) = Ok tt st'
    /\ forall name loader,
        (name, loader) ∈ loaders ->
        exists dl batches,
          loader (module_constants w) st' = Ok dl st'
          /\ self st' !! name = Some (dl_dataset dl)
          /\ shuffle dl = false
          /\ (forall w1 w2,
                iterate dl w1 = Ok batches w1 /\ iterate dl w2 = Ok batches w2)
          /\ concat batches = samples_of (dl_dataset dl).
Proof.
  intros Hdir Htf Hin Hlen Hfair.
  pose proof (BATCH_SIZE_pos w) as Hpos.
  eexists. split; [eapply setup_stage_None; eassumption|].
  intros name loader Hl.
  destruct (datasets_after_setup attrs w root tf name loader Hlen Hfair Hl)
    as (v & Hv & Hsized & Hwi).
  set (dl := mkDataLoader v (BATCH_SIZE (module_constants w)) false false).
  destruct (iterate_sequential dl) as (batches & Hiter & Hcat & _);
    try reflexivity; try assumption.
  exists dl, batches. split; [|split; [exact Hv|split; [reflexivity|]]].
  - apply (loader_Ok name); [assumption|exact Hv|lia].
  - split; [|assumption]. intros w1 w2. split; apply Hiter.
Qed.

Lemma loaders_do_not_shuffle_witness :
  exists st',
    CIFAR10DataModule.setup None (mkSt dm_attrs local_copy) = Ok tt st'
    /\ forall name loader,
        (name, loader) ∈ loaders ->
        exists dl batches,
          loader (module_constants local_copy) st' = Ok dl st'
          /\ self st' !! name = Some (dl_dataset dl)
          /\ shuffle dl = false
          /\ (forall w1 w2,
                iterate dl w1 = Ok batches w1 /\ iterate dl w2 = Ok batches w2)
          /\ concat batches = samples_of (dl_dataset dl).
Proof.
  apply (loaders_do_not_shuffle dm_attrs local_copy "./"
           [ToTensor; Normalize [1#2; 1#2; 1#2]%Q [1#2; 1#2; 1#2]%Q]).
  - reflexivity.
  - reflexivity.
  - change ("./" ∈ ({["./"]} : gset string)). now apply elem_of_singleton_2.
  - reflexivity.
  - intros k n. reflexivity.
Defined.

(** ** LitModel: the steps *)

Lemma tensor_sum_eq (predicted labels : list N) :
  tensor_sum (tensor_eq predicted labels) = correct_predictions predicted labels.
Proof.
  unfold tensor_sum, tensor_eq, correct_predictions, len. f_equal.
  revert labels. induction predicted as [|x a IH]; intros [|y b];
    try reflexivity.
  cbn [zip_with]. rewrite !filter_cons. cbn [fst snd].
  destruct (N.eqb_spec x y) as [Heq|Hne].
  - rewrite !decide_True by done. cbn [length]. now rewrite IH.
  - rewrite decide_False by done. rewrite decide_False by done. apply IH.
Qed.

Section Steps.

Variables Images Matrix Scalar : Type.
Variable call : nnModule -> Images -> Matrix.
Variable log_softmax : Matrix -> Z -> Matrix.
Variable nll_loss : Matrix -> list N -> Scalar.
Variable argmax : Matrix -> Z -> list N.
Variable true_divide : N -> N -> Scalar.

Local Abbreviation training_step :=
  (LitModel.training_step Images Matrix Scalar call log_softmax nll_loss).
Local Abbreviation validation_step :=
  (LitModel.validation_step Images Matrix Scalar call log_softmax nll_loss
                            argmax true_divide).
Local Abbreviation forward := (LitModel.forward Images Matrix call log_softmax).

(** C5, as the code has it: [validation_step] computes and logs the
    negative log-likelihood loss of the log-softmax outputs and the
    accuracy, which is the number of batch elements whose argmax over the
    class dimension is the label, divided by the batch length;
    [training_step] computes the same loss, logs it and returns it, and
    computes nothing else. *)
Theorem steps_compute_loss_and_validation_accuracy
    (self : LitModel.LitModel) (x : Images) (y : list N) (batch_idx : N)
    (logged : list (LogEntry Scalar)) :
  let logits := log_softmax (call (LitModel.model self) x) 1 in
  let loss := nll_loss logits y in
  let acc := true_divide (correct_predictions (argmax logits 1) y) (len y) in
  forward self x = logits
  /\ training_step self (x, y) logged
     = Ok loss (logged ++ [mkLogEntry "train_loss" loss true true])
  /\ validation_step self (x, y) batch_idx logged
     = Ok tt (logged ++ [mkLogEntry "val_loss" loss true true;
                         mkLogEntry "val_acc" acc true true]).
Proof.
  cbv zeta. split; [reflexivity|]. split; [reflexivity|].
  unfold LitModel.validation_step, LitModel.log, bind, modify.
  cbn [default]. rewrite tensor_sum_eq, <- app_assoc. reflexivity.
Qed.

(** X17: every entry the steps add to the log is logged with
    [sync_dist=True] and [prog_bar=True], though both flags default to
    [False] in the framework: [train_loss] for [training_step], [val_loss]
    and [val_acc] for [validation_step].  The entries that were in the log
    stay as they were. *)
Theorem every_logged_metric_is_synchronised
    (self : LitModel.LitModel) (batch : LitModel.Batch Images) (batch_idx : N)
    (logged : list (LogEntry Scalar)) :
  (exists new,
      final (training_step self batch logged) = logged ++ new
      /\ log_name <$> new = ["train_loss"]
      /\ Forall (fun e => log_sync_dist e = true /\ log_prog_bar e = true) new)
  /\ (exists new,
      final (validation_step self batch batch_idx logged) = logged ++ new
      /\ log_name <$> new = ["val_loss"; "val_acc"]
      /\ Forall (fun e => log_sync_dist e = true /\ log_prog_bar e = true) new).
Proof.
  destruct batch as [x y]. split.
  - eexists [_]. split; [reflexivity|]. split; [reflexivity|].
    constructor; [split; reflexivity|constructor].
  - eexists [_; _]. split.
    + unfold LitModel.validation_step, LitModel.log, bind, modify.
      cbn [final]. rewrite <- app_assoc. reflexivity.
    + split; [reflexivity|]. repeat constructor.
Qed.

End Steps.

(** C5, as the claim has it, fails: [training_step] logs a single metric,
    the loss, and no accuracy.  Here the scalars are traced by the operation
    that produced them. *)
Lemma training_step_logs_no_accuracy :
  let logged :=
    final (LitModel.training_step unit unit Traced
             (fun _ _ => tt) (fun m _ => m) (fun _ target => NllLoss target)
             (LitModel.__init__ (Mod [] [])) (tt, [3; 5]) []) in
  log_name <$> logged = ["train_loss"]
  /\ ~ exists e a b, e ∈ logged /\ log_value e = TrueDivide a b.
Proof.
  cbv zeta. split; [reflexivity|].
  intros (e & a & b & He & Hv). cbn in He.
  apply list_elem_of_singleton in He. subst e. discriminate Hv.
Qed.

(** ** LitModel: the optimizer *)

Lemma nnModule_ind' (P : nnModule -> Prop) :
  (forall own children,
      Forall (fun c => P c.2) children -> P (Mod own children)) ->
  forall m, P m.
Proof.
  intros H. fix IH 1. intros [own children]. apply H.
  induction children as [|[name c] cs IHcs]; constructor.
  - apply IH.
  - apply IHcs.
Qed.

Lemma elem_of_all_parameters (p : N) (m : nnModule) :
  p ∈ all_parameters m <-> parameter_of p m.
Proof.
  split.
  - revert p. induction m as [own children IH] using nnModule_ind'.
    intros p. cbn [all_parameters]. rewrite elem_of_app. intros [Hown|Hsub].
    + now apply param_own.
    + apply list_elem_of_In, in_flat_map in Hsub as ([name c] & Hc & Hp).
      apply list_elem_of_In in Hc, Hp.
      rewrite Forall_forall in IH.
      apply (param_child p own children name c Hc).
      apply (IH _ Hc). exact Hp.
  - induction 1 as [own children Hown|own children name child Hc Hsub IH];
      cbn [all_parameters]; rewrite elem_of_app.
    + now left.
    + right. apply list_elem_of_In, in_flat_map.
      exists (name, child). split; now apply list_elem_of_In.
Qed.

Lemma elem_of_parameters (p : N) (m : nnModule) :
  p ∈ parameters m <-> parameter_of p m.
Proof.
  unfold parameters. rewrite elem_of_remove_dups. apply elem_of_all_parameters.
Qed.

(** C6: [configure_optimizers] returns one optimizer and only one, an
    Adam optimizer built from [self.parameters()], that is from every
    parameter of the adapter and of the network it wraps, each one once, and
    with no keyword argument: no learning rate is passed, so every
    hyperparameter is the default of the class. *)
Theorem configure_optimizers_returns_one_Adam (self : LitModel.LitModel) :
  exists o,
    LitModel.configure_optimizers self = Single o
    /\ optimizers_of (LitModel.configure_optimizers self) = [o]
    /\ o = Adam (parameters (LitModel.as_module self)) ∅
    /\ opt_class o = "Adam"
    /\ (forall p, p ∈ opt_params o <-> parameter_of p (LitModel.as_module self))
    /\ (forall p, p ∈ opt_params o <-> parameter_of p (LitModel.model self))
    /\ NoDup (opt_params o)
    /\ opt_defaults o = adam_defaults.
Proof.
  eexists. split; [reflexivity|]. split; [reflexivity|].
  split; [reflexivity|]. split; [reflexivity|].
  cbn [opt_params opt_defaults Adam].
  split; [|split; [|split]].
  - intros p. apply elem_of_parameters.
  - intros p. rewrite elem_of_parameters. split.
    + inversion 1 as [? ? Hown|? ? name child Hc Hsub]; subst.
      * now apply elem_of_nil in Hown.
      * apply list_elem_of_singleton in Hc. now injection Hc as -> ->.
    + intros Hp. apply (param_child p [] _ "model" (LitModel.model self)).
      * now apply list_elem_of_singleton.
      * exact Hp.
  - apply NoDup_remove_dups.
  - apply (left_id_L ∅ (∪)).
Qed.

(** ** The top level of the script *)






(** C4 on the code: the environment variable is read into
    [PATH_DATASETS], but the datamodule of the script is built with the
    default ["./"] of its class.  With [PATH_DATASETS=/data] the data is
    downloaded under ["./"], and nothing is put under ["/data"]. *)
Theorem data_dir_ignores_PATH_DATASETS :
  PATH_DATASETS (module_constants online_machine) = "/data"
  /\ exists st w',
      dm (fresh online_machine) = Ok tt st
      /\ self st !! "data_dir" = Some (VStr "./")
      /\ CIFAR10DataModule.prepare_data st = Ok tt (mkSt (self st) w')
      /\ "./" ∈ fs w'
      /\ "/data" ∉ fs w'.
Proof.
  split; [reflexivity|].
  exists (mkSt dm_attrs online_machine),
         (set_fs ({["./"]} ∪ fs online_machine) online_machine).
  split; [reflexivity|]. split; [reflexivity|].
  split; [vm_compute; reflexivity|].
  cbn [fs set_fs online_machine]. split.
  - set_solver.
  - rewrite elem_of_union, elem_of_singleton, elem_of_empty.
    intros [H|[]]. discriminate H.
Qed.

(** Whatever the environment, the datamodule of the script stores its data
    under ["./"]. *)
Lemma dm_data_dir (w : World) :
  exists st, dm (fresh w) = Ok tt st /\ self st !! "data_dir" = Some (VStr "./").
Proof. exists (mkSt dm_attrs w). split; reflexivity. Qed.

(** * Further properties of the datamodule *)

(** ** How the library calls fail *)

Lemma in_world_Raise {A : Type} (m : M World A) (st : St) (e : Exn) (w : World) :
  m (world st) = Raise e w -> in_world m st = Raise e (mkSt (self st) w).
Proof. intros H. unfold in_world. now rewrite H. Qed.

Lemma getattr_Raise (name : string) (st : St) :
  self st !! name = None -> getattr name st = Raise (AttributeError name) st.
Proof. intros H. unfold getattr. now rewrite H. Qed.

Lemma CIFAR10_load_Raise (root : string) (train : bool) (tf : option Transform)
    (w : World) :
  root ∉ fs w ->
  exists msg, CIFAR10 root train tf false w = Raise (RuntimeError msg) w.
Proof.
  intros Hout. unfold CIFAR10, bind, ret, get. cbv beta iota.
  rewrite decide_False by assumption. eexists. reflexivity.
Qed.

Lemma CIFAR10_download_Raise (root : string) (train : bool)
    (tf : option Transform) (w : World) :
  root ∉ fs w -> network w = false ->
  CIFAR10 root train tf true w = Raise URLError w.
Proof.
  intros Hout Hnet. unfold CIFAR10, bind, ret, get. cbv beta iota.
  rewrite decide_False by assumption. now rewrite Hnet.
Qed.

Lemma set_draws_same (w : World) : set_draws (draws w) w = w.
Proof. now destruct w. Qed.

Lemma set_fs_same (w : World) : set_fs (fs w) w = w.
Proof. now destruct w. Qed.

(** ** The two blocks of [setup], case by case *)

(** The ['fit'] block either raises and leaves the state as it found it, or
    finds everything it needs and assigns the two subsets. *)
Lemma setup_fit_cases (st : St) :
  (exists e, setup_fit st = Raise e st)
  \/ (exists root tf,
        self st !! "data_dir" = Some (VStr root)
        /\ self st !! "transform" = Some (VTransform tf)
        /\ root ∈ fs (world st)
        /\ cifar_len (world st) true = 50000
        /\ setup_fit st
           = Ok tt (mkSt (fit_attrs root tf (world st) (self st))
                         (set_draws (S (draws (world st))) (world st)))).
Proof.
  destruct st as [attrs w]. cbn [self world].
  destruct (attrs !! "data_dir") as [v|] eqn:Hdir.
  2: { left. eexists. apply bind_Raise, getattr_Raise, Hdir. }
  destruct v as [root| | | | |];
    try (left; eexists; unfold setup_fit;
         erewrite bind_Ok; [|apply getattr_Ok; exact Hdir]; reflexivity).
  destruct (attrs !! "transform") as [v|] eqn:Htf.
  2: { left. eexists. unfold setup_fit.
       erewrite bind_Ok; [|apply getattr_Ok; exact Hdir].
       cbn [as_str]. rewrite bind_ret.
       apply bind_Raise, getattr_Raise, Htf. }
  destruct v as [| | |tf| |];
    try (left; eexists; unfold setup_fit;
         erewrite bind_Ok; [|apply getattr_Ok; exact Hdir];
         cbn [as_str]; rewrite bind_ret;
         erewrite bind_Ok; [|apply getattr_Ok; exact Htf]; reflexivity).
  destruct (decide (root ∈ fs w)) as [Hin|Hout].
  2: { left.
       destruct (CIFAR10_load_Raise root true (Some tf) w Hout) as [msg Hmsg].
       eexists. unfold setup_fit.
       erewrite bind_Ok; [|apply getattr_Ok; exact Hdir].
       cbn [as_str]. rewrite bind_ret.
       erewrite bind_Ok; [|apply getattr_Ok; exact Htf].
       cbn [as_transform]. rewrite bind_ret.
       apply bind_Raise. apply (in_world_Raise _ (mkSt attrs w)). exact Hmsg. }
  destruct (N.eq_dec (cifar_len w true) 50000) as [Hlen|Hlen].
  2: { left.
       destruct (random_split_Raise
                   (mkDataset root true (Some tf) (cifar_len w true))
                   CIFAR10DataModule.split_lengths w) as [msg Hmsg].
       { cbn [ds_len]. intros H. apply Hlen. now rewrite <- H. }
       eexists. unfold setup_fit.
       erewrite bind_Ok; [|apply getattr_Ok; exact Hdir].
       cbn [as_str]. rewrite bind_ret.
       erewrite bind_Ok; [|apply getattr_Ok; exact Htf].
       cbn [as_transform]. rewrite bind_ret.
       erewrite bind_Ok;
         [|apply (in_world_Ok _ (mkSt attrs w)); apply CIFAR10_load; exact Hin].
       apply bind_Raise. apply (in_world_Raise _ (mkSt attrs w)). exact Hmsg. }
  right. exists root, tf. repeat split; try assumption.
  now apply setup_fit_Ok.
Qed.

(** And so for the ['test'] block. *)
Lemma setup_test_cases (st : St) :
  (exists e, setup_test st = Raise e st)
  \/ (exists root tf,
        self st !! "data_dir" = Some (VStr root)
        /\ self st !! "transform" = Some (VTransform tf)
        /\ root ∈ fs (world st)
        /\ setup_test st
           = Ok tt (mkSt (test_attrs root tf (world st) (self st)) (world st))).
Proof.
  destruct st as [attrs w]. cbn [self world].
  destruct (attrs !! "data_dir") as [v|] eqn:Hdir.
  2: { left. eexists. apply bind_Raise, getattr_Raise, Hdir. }
  destruct v as [root| | | | |];
    try (left; eexists; unfold setup_test;
         erewrite bind_Ok; [|apply getattr_Ok; exact Hdir]; reflexivity).
  destruct (attrs !! "transform") as [v|] eqn:Htf.
  2: { left. eexists. unfold setup_test.
       erewrite bind_Ok; [|apply getattr_Ok; exact Hdir].
       cbn [as_str]. rewrite bind_ret.
       apply bind_Raise, getattr_Raise, Htf. }
  destruct v as [| | |tf| |];
    try (left; eexists; unfold setup_test;
         erewrite bind_Ok; [|apply getattr_Ok; exact Hdir];
         cbn [as_str]; rewrite bind_ret;
         erewrite bind_Ok; [|apply getattr_Ok; exact Htf]; reflexivity).
  destruct (decide (root ∈ fs w)) as [Hin|Hout].
  2: { left.
       destruct (CIFAR10_load_Raise root false (Some tf) w Hout) as [msg Hmsg].
       eexists. unfold setup_test.
       erewrite bind_Ok; [|apply getattr_Ok; exact Hdir].
       cbn [as_str]. rewrite bind_ret.
       erewrite bind_Ok; [|apply getattr_Ok; exact Htf].
       cbn [as_transform]. rewrite bind_ret.
       apply bind_Raise. apply (in_world_Raise _ (mkSt attrs w)). exact Hmsg. }
  right. exists root, tf. repeat split; try assumption.
  now apply setup_test_Ok.
Qed.

(** The ['test'] block cannot fail once the ['fit'] block went through. *)
Lemma setup_test_after_fit (attrs : gmap string PyVal) (w : World)
    (root : string) (tf : Transform) (d : nat) :
  attrs !! "data_dir" = Some (VStr root) ->
  attrs !! "transform" = Some (VTransform tf) ->
  root ∈ fs w ->
  setup_test (mkSt (fit_attrs root tf w attrs) (set_draws d w))
  = Ok tt (mkSt (test_attrs root tf w (fit_attrs root tf w attrs))
                (set_draws d w)).
Proof.
  intros Hdir Htf Hin. rewrite (setup_test_Ok _ _ root tf).
  - reflexivity.
  - rewrite fit_attrs_frame by discriminate. exact Hdir.
  - rewrite fit_attrs_frame by discriminate. exact Htf.
  - exact Hin.
Qed.

(** [setup], case by case: it raises and leaves the state as it found it, or
    it returns, and then the world differs at most by the draws made. *)
Lemma setup_cases (stage : option string) (st : St) :
  (exists e, CIFAR10DataModule.setup stage st = Raise e st)
  \/ (exists attrs' d,
        CIFAR10DataModule.setup stage st
        = Ok tt (mkSt attrs' (set_draws d (world st)))
        /\ (d = draws (world st) \/ d = S (draws (world st)))
        /\ (stage_is stage "fit" = false -> d = draws (world st))).
Proof.
  rewrite setup_blocks.
  destruct (stage_is stage "fit"), (stage_is stage "test").
  - destruct (setup_fit_cases st) as [[e H]|(root & tf & Hdir & Htf & Hin & _ & H)].
    + left. exists e. now apply bind_Raise.
    + right. eexists _, _. split; [|split; [right; reflexivity|discriminate]].
      erewrite bind_Ok; [|exact H].
      now apply setup_test_after_fit.
  - destruct (setup_fit_cases st) as [[e H]|(root & tf & _ & _ & _ & _ & H)].
    + left. exists e. now apply bind_Raise.
    + right. eexists _, _. split; [|split; [right; reflexivity|discriminate]].
      erewrite bind_Ok; [|exact H]. reflexivity.
  - rewrite bind_ret.
    destruct (setup_test_cases st) as [[e H]|(root & tf & _ & _ & _ & H)].
    + left. exists e. exact H.
    + right. eexists _, _. split; [|split; [left|]; reflexivity].
      rewrite H, set_draws_same. reflexivity.
  - right. exists (self st), (draws (world st)).
    split; [|split; [left|]; reflexivity].
    rewrite set_draws_same. now destruct st.
Qed.

Lemma setup_fit_ValueError (attrs : gmap string PyVal) (w : World)
    (root : string) (tf : Transform) :
  attrs !! "data_dir" = Some (VStr root) ->
  attrs !! "transform" = Some (VTransform tf) ->
  root ∈ fs w ->
  cifar_len w true <> 50000 ->
  exists msg, setup_fit (mkSt attrs w) = Raise (ValueError msg) (mkSt attrs w).
Proof.
  intros Hdir Htf Hin Hlen.
  destruct (random_split_Raise
              (mkDataset root true (Some tf) (cifar_len w true))
              CIFAR10DataModule.split_lengths w) as [msg Hmsg].
  { cbn [ds_len]. intros H. apply Hlen. now rewrite <- H. }
  exists msg. unfold setup_fit.
  erewrite bind_Ok; [|apply getattr_Ok; exact Hdir].
  cbn [as_str]. rewrite bind_ret.
  erewrite bind_Ok; [|apply getattr_Ok; exact Htf].
  cbn [as_transform]. rewrite bind_ret.
  erewrite bind_Ok;
    [|apply (in_world_Ok _ (mkSt attrs w)); apply CIFAR10_load; exact Hin].
  apply bind_Raise. apply (in_world_Raise _ (mkSt attrs w)). exact Hmsg.
Qed.

Lemma setup_fit_RuntimeError (attrs : gmap string PyVal) (w : World)
    (root : string) (tf : Transform) :
  attrs !! "data_dir" = Some (VStr root) ->
  attrs !! "transform" = Some (VTransform tf) ->
  root ∉ fs w ->
  exists msg, setup_fit (mkSt attrs w) = Raise (RuntimeError msg) (mkSt attrs w).
Proof.
  intros Hdir Htf Hout.
  destruct (CIFAR10_load_Raise root true (Some tf) w Hout) as [msg Hmsg].
  exists msg. unfold setup_fit.
  erewrite bind_Ok; [|apply getattr_Ok; exact Hdir].
  cbn [as_str]. rewrite bind_ret.
  erewrite bind_Ok; [|apply getattr_Ok; exact Htf].
  cbn [as_transform]. rewrite bind_ret.
  apply bind_Raise. apply (in_world_Raise _ (mkSt attrs w)). exact Hmsg.
Qed.

Lemma setup_test_RuntimeError (attrs : gmap string PyVal) (w : World)
    (root : string) (tf : Transform) :
  attrs !! "data_dir" = Some (VStr root) ->
  attrs !! "transform" = Some (VTransform tf) ->
  root ∉ fs w ->
  exists msg, setup_test (mkSt attrs w) = Raise (RuntimeError msg) (mkSt attrs w).
Proof.
  intros Hdir Htf Hout.
  destruct (CIFAR10_load_Raise root false (Some tf) w Hout) as [msg Hmsg].
  exists msg. unfold setup_test.
  erewrite bind_Ok; [|apply getattr_Ok; exact Hdir].
  cbn [as_str]. rewrite bind_ret.
  erewrite bind_Ok; [|apply getattr_Ok; exact Htf].
  cbn [as_transform]. rewrite bind_ret.
  apply bind_Raise. apply (in_world_Raise _ (mkSt attrs w)). exact Hmsg.
Qed.

(** ** The constructor *)

Lemma init_Ok (data_dir : option string) (w : World) :
  CIFAR10DataModule.__init__ data_dir (fresh w)
  = Ok tt (mkSt (init_attrs (default "./" data_dir)) w).
Proof. reflexivity. Qed.

Lemma init_attrs_data_dir (d : string) :
  init_attrs d !! "data_dir" = Some (VStr d).
Proof.
  unfold init_attrs. rewrite !lookup_insert_ne by discriminate.
  apply lookup_insert_eq.
Qed.

Lemma init_attrs_transform (d : string) :
  init_attrs d !! "transform" = Some (VTransform cifar_transform).
Proof.
  unfold init_attrs. rewrite !lookup_insert_ne by discriminate.
  apply lookup_insert_eq.
Qed.

(** A fresh datamodule has none of the attributes the loaders read. *)
Lemma init_attrs_no_dataset (d name : string)
    (loader : Globals -> M St DataLoader) :
  (name, loader) ∈ loaders -> init_attrs d !! name = None.
Proof.
  intros Hin. unfold loaders in Hin.
  rewrite !elem_of_cons, elem_of_nil in Hin.
  unfold init_attrs.
  destruct Hin as [[= -> ->]|[[= -> ->]|[[= -> ->]|[]]]];
    rewrite !lookup_insert_ne by discriminate; apply lookup_empty.
Qed.

Lemma loader_Raise (name : string) (loader : Globals -> M St DataLoader)
    (g : Globals) (st : St) :
  (name, loader) ∈ loaders ->
  self st !! name = None ->
  loader g st = Raise (AttributeError name) st.
Proof.
  intros Hin Hv. unfold loaders in Hin.
  rewrite !elem_of_cons, elem_of_nil in Hin.
  destruct Hin as [[= -> ->]|[[= -> ->]|[[= -> ->]|[]]]];
    apply bind_Raise, getattr_Raise, Hv.
Qed.

(** ** Failure and stages of [setup] *)

(** X1: [setup] is all or nothing.  Whatever the stage and the state, when
    it raises, the attributes and the world are exactly as before the
    call: no subset is left assigned and no random draw is consumed. *)
Theorem setup_is_atomic (stage : option string) (st st' : St) (e : Exn) :
  CIFAR10DataModule.setup stage st = Raise e st' -> st' = st.
Proof.
  intros H. destruct (setup_cases stage st) as [[e0 H0]|(a & d & H0 & _ & _)].
  - rewrite H0 in H. now injection H as _ <-.
  - rewrite H0 in H. discriminate H.
Qed.

Lemma setup_is_atomic_witness :
  exists msg,
    CIFAR10DataModule.setup (Some "fit") (mkSt dm_attrs offline_machine)
    = Raise (RuntimeError msg) (mkSt dm_attrs offline_machine)
    /\ mkSt dm_attrs offline_machine = mkSt dm_attrs offline_machine.
Proof.
  eexists. split; [reflexivity|].
  eapply (setup_is_atomic (Some "fit")). reflexivity.
Defined.

(** X2: the split sizes are fixed, so with the data on disk [setup] for
    the stages ['fit'] and [None] returns if and only if the training set has
    exactly 50000 elements; for any other size it raises [ValueError] and
    assigns nothing. *)
Theorem setup_fit_needs_50000_samples (stage : option string)
    (attrs : gmap string PyVal) (w : World) (root : string) (tf : Transform) :
  stage = Some "fit" \/ stage = None ->
  attrs !! "data_dir" = Some (VStr root) ->
  attrs !! "transform" = Some (VTransform tf) ->
  root ∈ fs w ->
  ((exists st', CIFAR10DataModule.setup stage (mkSt attrs w) = Ok tt st')
   <-> cifar_len w true = 50000)
  /\ (cifar_len w true <> 50000 ->
      exists msg,
        CIFAR10DataModule.setup stage (mkSt attrs w)
        = Raise (ValueError msg) (mkSt attrs w)).
Proof.
  intros Hstage Hdir Htf Hin.
  assert (Hbad : cifar_len w true <> 50000 ->
                 exists msg,
                   CIFAR10DataModule.setup stage (mkSt attrs w)
                   = Raise (ValueError msg) (mkSt attrs w)).
  { intros Hlen.
    destruct (setup_fit_ValueError attrs w root tf Hdir Htf Hin Hlen)
      as [msg Hmsg].
    exists msg. rewrite setup_blocks.
    destruct Hstage as [-> | ->]; now apply bind_Raise. }
  split; [|exact Hbad]. split.
  - intros [st' Hok].
    destruct (N.eq_dec (cifar_len w true) 50000) as [Hlen|Hlen]; [assumption|].
    destruct (Hbad Hlen) as [msg Hmsg]. rewrite Hmsg in Hok. discriminate Hok.
  - intros Hlen. destruct Hstage as [-> | ->]; eexists.
    + now apply (setup_stage_fit attrs w root tf).
    + now apply (setup_stage_None attrs w root tf).
Qed.

Lemma setup_fit_needs_50000_samples_witness :
  exists msg,
    CIFAR10DataModule.setup (Some "fit") (mkSt dm_attrs other_dataset)
    = Raise (ValueError msg) (mkSt dm_attrs other_dataset).
Proof.
  apply (setup_fit_needs_50000_samples (Some "fit") dm_attrs other_dataset
           "./" cifar_transform).
  - left. reflexivity.
  - reflexivity.
  - reflexivity.
  - change ("./" ∈ ({["./"]} : gset string)). now apply elem_of_singleton_2.
  - intros H. vm_compute in H. discriminate H.
Defined.

(** X3: [setup] never downloads.  Without a verified copy under
    [data_dir] it raises [RuntimeError] for each of the stages ['fit'],
    ['test'] and [None], also when the network is up, and assigns nothing. *)
Theorem setup_never_downloads (stage : option string)
    (attrs : gmap string PyVal) (w : World) (root : string) (tf : Transform) :
  stage = Some "fit" \/ stage = Some "test" \/ stage = None ->
  attrs !! "data_dir" = Some (VStr root) ->
  attrs !! "transform" = Some (VTransform tf) ->
  root ∉ fs w ->
  exists msg,
    CIFAR10DataModule.setup stage (mkSt attrs w)
    = Raise (RuntimeError msg) (mkSt attrs w).
Proof.
  intros Hstage Hdir Htf Hout. rewrite setup_blocks.
  destruct Hstage as [-> | [-> | ->]].
  - destruct (setup_fit_RuntimeError attrs w root tf Hdir Htf Hout) as [m Hm].
    exists m. now apply bind_Raise.
  - destruct (setup_test_RuntimeError attrs w root tf Hdir Htf Hout) as [m Hm].
    exists m. change (stage_is (Some "test") "fit") with false. cbv iota.
    rewrite bind_ret. exact Hm.
  - destruct (setup_fit_RuntimeError attrs w root tf Hdir Htf Hout) as [m Hm].
    exists m. now apply bind_Raise.
Qed.

Lemma setup_never_downloads_witness :
  network online_machine = true
  /\ exists msg,
      CIFAR10DataModule.setup None (mkSt dm_attrs online_machine)
      = Raise (RuntimeError msg) (mkSt dm_attrs online_machine).
Proof.
  split; [reflexivity|].
  apply (setup_never_downloads None dm_attrs online_machine "./" cifar_transform).
  - right. right. reflexivity.
  - reflexivity.
  - reflexivity.
  - change ("./" ∉ (∅ : gset string)). apply not_elem_of_empty.
Defined.

(** X4: a stage other than ['fit'] and ['test'] (the framework also
    passes ['validate'] and ['predict']) makes [setup] return without
    assigning anything, so on a datamodule that was only constructed and set
    up for such a stage every loader raises [AttributeError]. *)
Theorem other_stages_leave_loaders_unusable (s : string)
    (data_dir : option string) (w : World) (g : Globals) (name : string)
    (loader : Globals -> M St DataLoader) :
  s <> "fit" -> s <> "test" ->
  (name, loader) ∈ loaders ->
  (CIFAR10DataModule.__init__ data_dir ;;;
   CIFAR10DataModule.setup (Some s)) (fresh w)
  = Ok tt (mkSt (init_attrs (default "./" data_dir)) w)
  /\ (CIFAR10DataModule.__init__ data_dir ;;;
      CIFAR10DataModule.setup (Some s) ;;;
      loader g) (fresh w)
     = Raise (AttributeError name) (mkSt (init_attrs (default "./" data_dir)) w).
Proof.
  intros Hfit Htest Hin. split.
  - erewrite bind_Ok; [|apply init_Ok]. now apply setup_stage_other.
  - erewrite bind_Ok; [|apply init_Ok].
    erewrite bind_Ok; [|now apply setup_stage_other].
    apply (loader_Raise name); [assumption|].
    now apply (init_attrs_no_dataset _ name loader).
Qed.

Lemma other_stages_leave_loaders_unusable_witness :
  (CIFAR10DataModule.__init__ None ;;;
   CIFAR10DataModule.setup (Some "validate") ;;;
   CIFAR10DataModule.val_dataloader (module_constants local_copy))
    (fresh local_copy)
  = Raise (AttributeError "cifar_val") (mkSt (init_attrs "./") local_copy).
Proof.
  apply (other_stages_leave_loaders_unusable "validate" None local_copy
           (module_constants local_copy) "cifar_val"
           CIFAR10DataModule.val_dataloader).
  - discriminate.
  - discriminate.
  - unfold loaders. apply elem_of_cons. right. apply elem_of_cons. now left.
Defined.

Lemma fit_attrs_train (root : string) (tf : Transform) (w : World)
    (attrs : gmap string PyVal) :
  is_Some (fit_attrs root tf w attrs !! "cifar_train").
Proof.
  unfold fit_attrs. cbv zeta. rewrite lookup_insert_ne by discriminate.
  rewrite lookup_insert_eq. eauto.
Qed.

Lemma fit_attrs_val (root : string) (tf : Transform) (w : World)
    (attrs : gmap string PyVal) :
  is_Some (fit_attrs root tf w attrs !! "cifar_val").
Proof. unfold fit_attrs. cbv zeta. rewrite lookup_insert_eq. eauto. Qed.

Lemma train_in_loaders :
  ("cifar_train", CIFAR10DataModule.train_dataloader) ∈ loaders.
Proof. unfold loaders. apply elem_of_cons. now left. Qed.

Lemma val_in_loaders :
  ("cifar_val", CIFAR10DataModule.val_dataloader) ∈ loaders.
Proof. unfold loaders. apply elem_of_cons. right. apply elem_of_cons. now left. Qed.

Lemma test_in_loaders :
  ("cifar_test", CIFAR10DataModule.test_dataloader) ∈ loaders.
Proof.
  unfold loaders. do 2 (apply elem_of_cons; right). apply elem_of_cons. now left.
Qed.

Lemma BATCH_SIZE_nonzero (w : World) : BATCH_SIZE (module_constants w) <> 0.
Proof. pose proof (BATCH_SIZE_pos w). lia. Qed.

(** X5: the loaders follow the stage.  On a datamodule that was
    constructed and set up for ['test'], the test loader can be built and
    the train and validation loaders raise [AttributeError]; set up for
    ['fit'], the train and validation loaders can be built and the test
    loader raises [AttributeError]. *)
Theorem loaders_follow_the_stage (data_dir : option string) (w : World) :
  default "./" data_dir ∈ fs w ->
  (exists st',
      (CIFAR10DataModule.__init__ data_dir ;;;
       CIFAR10DataModule.setup (Some "test")) (fresh w) = Ok tt st'
      /\ (exists dl,
             CIFAR10DataModule.test_dataloader (module_constants w) st'
             = Ok dl st')
      /\ CIFAR10DataModule.train_dataloader (module_constants w) st'
         = Raise (AttributeError "cifar_train") st'
      /\ CIFAR10DataModule.val_dataloader (module_constants w) st'
         = Raise (AttributeError "cifar_val") st')
  /\ (cifar_len w true = 50000 ->
      exists st',
        (CIFAR10DataModule.__init__ data_dir ;;;
         CIFAR10DataModule.setup (Some "fit")) (fresh w) = Ok tt st'
        /\ (exists dl,
               CIFAR10DataModule.train_dataloader (module_constants w) st'
               = Ok dl st')
        /\ (exists dl,
               CIFAR10DataModule.val_dataloader (module_constants w) st'
               = Ok dl st')
        /\ CIFAR10DataModule.test_dataloader (module_constants w) st'
           = Raise (AttributeError "cifar_test") st').
Proof.
  intros Hin. set (d := default "./" data_dir) in *.
  pose proof (BATCH_SIZE_nonzero w) as Hbs.
  split; [|intros Hlen].
  - eexists. split.
    { erewrite bind_Ok; [|apply init_Ok].
      apply (setup_stage_test _ _ d cifar_transform);
        [apply init_attrs_data_dir|apply init_attrs_transform|exact Hin]. }
    split; [|split].
    + eexists. apply (loader_Ok "cifar_test"); [apply test_in_loaders| |exact Hbs].
      cbn [self]. unfold test_attrs. apply lookup_insert_eq.
    + apply (loader_Raise "cifar_train"); [apply train_in_loaders|].
      cbn [self]. rewrite test_attrs_frame by discriminate.
      apply (init_attrs_no_dataset _ _ _ train_in_loaders).
    + apply (loader_Raise "cifar_val"); [apply val_in_loaders|].
      cbn [self]. rewrite test_attrs_frame by discriminate.
      apply (init_attrs_no_dataset _ _ _ val_in_loaders).
  - eexists. split.
    { erewrite bind_Ok; [|apply init_Ok].
      apply (setup_stage_fit _ _ d cifar_transform);
        [apply init_attrs_data_dir|apply init_attrs_transform|exact Hin
        |exact Hlen]. }
    split; [|split].
    + destruct (fit_attrs_train d cifar_transform w (init_attrs d)) as [v Hv].
      eexists. apply (loader_Ok "cifar_train");
        [apply train_in_loaders|exact Hv|exact Hbs].
    + destruct (fit_attrs_val d cifar_transform w (init_attrs d)) as [v Hv].
      eexists. apply (loader_Ok "cifar_val");
        [apply val_in_loaders|exact Hv|exact Hbs].
    + apply (loader_Raise "cifar_test"); [apply test_in_loaders|].
      cbn [self]. rewrite fit_attrs_frame by discriminate.
      apply (init_attrs_no_dataset _ _ _ test_in_loaders).
Qed.

Lemma loaders_follow_the_stage_witness :
  exists st',
    (CIFAR10DataModule.__init__ None ;;;
     CIFAR10DataModule.setup (Some "fit")) (fresh local_copy) = Ok tt st'
    /\ (exists dl,
           CIFAR10DataModule.train_dataloader (module_constants local_copy) st'
           = Ok dl st')
    /\ (exists dl,
           CIFAR10DataModule.val_dataloader (module_constants local_copy) st'
           = Ok dl st')
    /\ CIFAR10DataModule.test_dataloader (module_constants local_copy) st'
       = Raise (AttributeError "cifar_test") st'.
Proof.
  apply (loaders_follow_the_stage None local_copy).
  - change ("./" ∈ ({["./"]} : gset string)). now apply elem_of_singleton_2.
  - reflexivity.
Defined.

(** X6: [setup(None)] is [setup('fit')] followed by [setup('test')]: on
    every state the two end in the same state with the same outcome, be it a
    return or an exception. *)
Theorem setup_None_is_fit_then_test (st : St) :
  (CIFAR10DataModule.setup (Some "fit") ;;;
   CIFAR10DataModule.setup (Some "test")) st
  = CIFAR10DataModule.setup None st.
Proof.
  rewrite !setup_blocks.
  change (stage_is (Some "fit") "fit") with true.
  change (stage_is (Some "fit") "test") with false.
  change (stage_is (Some "test") "fit") with false.
  change (stage_is (Some "test") "test") with true.
  change (stage_is None "fit") with true.
  change (stage_is None "test") with true. cbv iota.
  unfold bind, ret. now destruct (setup_fit st).
Qed.

(** X7: when they succeed, the two stages can be set up in either order:
    [setup('test')] followed by [setup('fit')] ends in the state that
    [setup(None)] ends in. *)
Theorem setup_stages_commute (attrs : gmap string PyVal) (w : World)
    (root : string) (tf : Transform) :
  attrs !! "data_dir" = Some (VStr root) ->
  attrs !! "transform" = Some (VTransform tf) ->
  root ∈ fs w ->
  cifar_len w true = 50000 ->
  exists st',
    CIFAR10DataModule.setup None (mkSt attrs w) = Ok tt st'
    /\ (CIFAR10DataModule.setup (Some "test") ;;;
        CIFAR10DataModule.setup (Some "fit")) (mkSt attrs w) = Ok tt st'.
Proof.
  intros Hdir Htf Hin Hlen. eexists. split.
  - now apply (setup_stage_None attrs w root tf).
  - erewrite bind_Ok; [|now apply (setup_stage_test attrs w root tf)].
    rewrite (setup_stage_fit _ w root tf); try assumption.
    + f_equal. f_equal. unfold test_attrs, fit_attrs. cbv zeta.
      rewrite (insert_insert_ne _ "cifar_train" "cifar_test") by discriminate.
      rewrite (insert_insert_ne _ "cifar_val" "cifar_test") by discriminate.
      reflexivity.
    + rewrite test_attrs_frame by discriminate. exact Hdir.
    + rewrite test_attrs_frame by discriminate. exact Htf.
Qed.

Lemma setup_stages_commute_witness :
  exists st',
    CIFAR10DataModule.setup None (mkSt dm_attrs local_copy) = Ok tt st'
    /\ (CIFAR10DataModule.setup (Some "test") ;;;
        CIFAR10DataModule.setup (Some "fit")) (mkSt dm_attrs local_copy)
       = Ok tt st'.
Proof.
  apply (setup_stages_commute dm_attrs local_copy "./" cifar_transform).
  - reflexivity.
  - reflexivity.
  - change ("./" ∈ ({["./"]} : gset string)). now apply elem_of_singleton_2.
  - reflexivity.
Defined.

(** X8: [setup] reads the disk and never writes to it.  However it ends,
    the world differs from the one it started in at most by the number of
    random draws, of which it makes at most one, and none when the stage is
    neither ['fit'] nor [None]. *)
Theorem setup_only_draws (stage : option string) (st : St) :
  exists d,
    world (final (CIFAR10DataModule.setup stage st)) = set_draws d (world st)
    /\ (d = draws (world st) \/ d = S (draws (world st)))
    /\ (stage_is stage "fit" = false -> d = draws (world st)).
Proof.
  destruct (setup_cases stage st) as [[e H]|(a & d & H & Hd & Hfit)].
  - exists (draws (world st)). rewrite H. cbn [final].
    rewrite set_draws_same. auto.
  - exists d. rewrite H. cbn [final world]. auto.
Qed.

(** ** [prepare_data], case by case *)

Lemma prepare_data_Ok (attrs : gmap string PyVal) (w : World) (root : string) :
  attrs !! "data_dir" = Some (VStr root) ->
  root ∈ fs w \/ network w = true ->
  CIFAR10DataModule.prepare_data (mkSt attrs w)
  = Ok tt (mkSt attrs (set_fs ({[root]} ∪ fs w) w)).
Proof.
  intros Hdir Hhave. unfold CIFAR10DataModule.prepare_data.
  erewrite bind_Ok; [|apply getattr_Ok; exact Hdir].
  cbn [as_str]. rewrite bind_ret.
  destruct (decide (root ∈ fs w)) as [Hin|Hout].
  - erewrite bind_Ok;
      [|apply (in_world_Ok _ (mkSt attrs w));
        apply CIFAR10_download_present; exact Hin].
    erewrite bind_Ok; [|apply getattr_Ok; exact Hdir].
    cbn [as_str]. rewrite bind_ret.
    erewrite bind_Ok;
      [|apply (in_world_Ok _ (mkSt attrs w));
        apply CIFAR10_download_present; exact Hin].
    unfold ret. cbn [self].
    rewrite (subseteq_union_1_L {[root]} (fs w))
      by (now apply singleton_subseteq_l).
    now rewrite set_fs_same.
  - destruct Hhave as [Hin|Hnet]; [exfalso; exact (Hout Hin)|].
    assert (Hin' : root ∈ fs (set_fs ({[root]} ∪ fs w) w)).
    { cbn [fs set_fs]. apply elem_of_union. left. now apply elem_of_singleton_2. }
    erewrite bind_Ok;
      [|apply (in_world_Ok _ (mkSt attrs w));
        apply CIFAR10_download_fetch; assumption].
    erewrite bind_Ok; [|apply getattr_Ok; exact Hdir].
    cbn [as_str]. rewrite bind_ret.
    erewrite bind_Ok;
      [|apply (in_world_Ok _ (mkSt attrs (set_fs ({[root]} ∪ fs w) w)));
        apply CIFAR10_download_present; exact Hin'].
    reflexivity.
Qed.

Lemma prepare_data_URLError (attrs : gmap string PyVal) (w : World)
    (root : string) :
  attrs !! "data_dir" = Some (VStr root) ->
  root ∉ fs w -> network w = false ->
  CIFAR10DataModule.prepare_data (mkSt attrs w) = Raise URLError (mkSt attrs w).
Proof.
  intros Hdir Hout Hnet. unfold CIFAR10DataModule.prepare_data.
  erewrite bind_Ok; [|apply getattr_Ok; exact Hdir].
  cbn [as_str]. rewrite bind_ret.
  apply bind_Raise. apply (in_world_Raise _ (mkSt attrs w)).
  now apply CIFAR10_download_Raise.
Qed.

Lemma prepare_data_cases (st : St) :
  (exists e, CIFAR10DataModule.prepare_data st = Raise e st)
  \/ (exists root,
        self st !! "data_dir" = Some (VStr root)
        /\ (root ∈ fs (world st) \/ network (world st) = true)
        /\ CIFAR10DataModule.prepare_data st
           = Ok tt (mkSt (self st)
                         (set_fs ({[root]} ∪ fs (world st)) (world st)))).
Proof.
  destruct st as [attrs w]. cbn [self world].
  destruct (attrs !! "data_dir") as [v|] eqn:Hdir.
  2: { left. eexists. apply bind_Raise, getattr_Raise, Hdir. }
  destruct v as [root| | | | |];
    try (left; eexists; unfold CIFAR10DataModule.prepare_data;
         erewrite bind_Ok; [|apply getattr_Ok; exact Hdir]; reflexivity).
  destruct (decide (root ∈ fs w)) as [Hin|Hout].
  - right. exists root. split; [reflexivity|]. split; [now left|].
    apply prepare_data_Ok; [assumption|now left].
  - destruct (network w) eqn:Hnet.
    + right. exists root. split; [reflexivity|]. split; [now right|].
      apply prepare_data_Ok; [assumption|now right].
    + left. exists URLError. now apply (prepare_data_URLError attrs w root).
Qed.

(** X9: [prepare_data] is idempotent.  On every state, calling it twice
    ends exactly as calling it once: same outcome, same attributes, same
    disk. *)
Theorem prepare_data_is_idempotent (st : St) :
  (CIFAR10DataModule.prepare_data ;;; CIFAR10DataModule.prepare_data) st
  = CIFAR10DataModule.prepare_data st.
Proof.
  destruct (prepare_data_cases st) as [[e H]|(root & Hdir & Hhave & H)].
  - rewrite H. now apply bind_Raise.
  - erewrite bind_Ok; [|exact H]. rewrite H.
    rewrite (prepare_data_Ok _ _ root).
    + cbn [fs set_fs]. unfold set_fs. cbn.
      now rewrite (assoc_L (∪)), (idemp_L (∪)).
    + exact Hdir.
    + left. cbn [fs set_fs]. apply elem_of_union. left.
      now apply elem_of_singleton_2.
Qed.

(** X10: for a datamodule whose [data_dir] is [root], [prepare_data]
    returns if and only if a verified copy is under [root] or the network is
    up; otherwise it raises the download error, assigns no attribute, and no
    directory gains a verified copy: the directories that hold one are those
    that held one before.  (Directories that the library may create on its
    way to the failing fetch are not part of the world modelled here.) *)
Theorem prepare_data_returns_iff_available (st : St) (root : string) :
  self st !! "data_dir" = Some (VStr root) ->
  ((exists st', CIFAR10DataModule.prepare_data st = Ok tt st')
   <-> (root ∈ fs (world st) \/ network (world st) = true))
  /\ (root ∉ fs (world st) -> network (world st) = false ->
      exists st',
        CIFAR10DataModule.prepare_data st = Raise URLError st'
        /\ self st' = self st
        /\ fs (world st') = fs (world st)).
Proof.
  intros Hdir. destruct st as [attrs w]. cbn [self world] in *.
  assert (Hbad : root ∉ fs w -> network w = false ->
                 CIFAR10DataModule.prepare_data (mkSt attrs w)
                 = Raise URLError (mkSt attrs w)).
  { intros Hout Hnet. now apply (prepare_data_URLError attrs w root). }
  split.
  - split.
    + intros [st' Hok].
      destruct (decide (root ∈ fs w)) as [Hin|Hout]; [now left|].
      destruct (network w) eqn:Hnet; [now right|].
      rewrite (Hbad Hout eq_refl) in Hok. discriminate Hok.
    + intros Hhave. eexists. now apply (prepare_data_Ok attrs w root).
  - intros Hout Hnet. exists (mkSt attrs w).
    split; [now apply Hbad|]. split; reflexivity.
Qed.

Lemma prepare_data_returns_iff_available_witness :
  exists st',
    CIFAR10DataModule.prepare_data (mkSt dm_attrs offline_machine)
    = Raise URLError st'
    /\ self st' = dm_attrs
    /\ fs (world st') = fs offline_machine.
Proof.
  apply (prepare_data_returns_iff_available (mkSt dm_attrs offline_machine) "./").
  - reflexivity.
  - change ("./" ∉ (∅ : gset string)). apply not_elem_of_empty.
  - reflexivity.
Defined.

(** X11: [prepare_data] only ever adds to the disk.  However it ends,
    the world differs from the one it started in at most by the content of
    the disk, from which nothing is removed; in particular it makes no random
    draw. *)
Theorem prepare_data_only_adds_to_disk (st : St) :
  exists files,
    world (final (CIFAR10DataModule.prepare_data st)) = set_fs files (world st)
    /\ fs (world st) ⊆ files.
Proof.
  destruct (prepare_data_cases st) as [[e H]|(root & _ & _ & H)].
  - exists (fs (world st)). rewrite H. cbn [final].
    now rewrite set_fs_same.
  - exists ({[root]} ∪ fs (world st)). rewrite H. cbn [final world].
    split; [reflexivity|]. apply union_subseteq_r.
Qed.

(** ** The life cycle *)

(** X12: the directory given to the constructor is the one every method
    works in.  From any disk, when the data is under that directory or the
    network is up and the training set has 50000 elements, constructing the
    datamodule, preparing the data and setting up every stage returns; the
    archive is then under that directory, the train and validation subsets
    are views of the training data of that directory seen through the
    transform of the constructor, and the test set is its test data seen
    through the same transform. *)
Theorem life_cycle_uses_data_dir (data_dir : option string) (w : World) :
  default "./" data_dir ∈ fs w \/ network w = true ->
  cifar_len w true = 50000 ->
  exists st' cifar_train cifar_val cifar_test,
    (CIFAR10DataModule.__init__ data_dir ;;;
     CIFAR10DataModule.prepare_data ;;;
     CIFAR10DataModule.setup None) (fresh w) = Ok tt st'
    /\ fs (world st') = {[default "./" data_dir]} ∪ fs w
    /\ self st' !! "data_dir" = Some (VStr (default "./" data_dir))
    /\ self st' !! "cifar_train" = Some (VSubset cifar_train)
    /\ self st' !! "cifar_val" = Some (VSubset cifar_val)
    /\ self st' !! "cifar_test" = Some (VDataset cifar_test)
    /\ sub_dataset cifar_train
       = mkDataset (default "./" data_dir) true (Some cifar_transform) 50000
    /\ sub_dataset cifar_val = sub_dataset cifar_train
    /\ cifar_test
       = mkDataset (default "./" data_dir) false (Some cifar_transform)
                   (cifar_len w false).
Proof.
  intros Hhave Hlen. set (d := default "./" data_dir) in *.
  set (w1 := set_fs ({[d]} ∪ fs w) w).
  assert (Hin : d ∈ fs w1).
  { cbn [w1 fs set_fs]. apply elem_of_union. left. now apply elem_of_singleton_2. }
  eexists _, _, _, _. split.
  { erewrite bind_Ok; [|apply init_Ok].
    erewrite bind_Ok;
      [|apply (prepare_data_Ok _ _ d); [apply init_attrs_data_dir|exact Hhave]].
    apply (setup_stage_None _ w1 d cifar_transform);
      [apply init_attrs_data_dir|apply init_attrs_transform|exact Hin
      |exact Hlen]. }
  cbn [self world]. split; [reflexivity|]. split.
  { rewrite test_attrs_frame by discriminate.
    rewrite fit_attrs_frame by discriminate. apply init_attrs_data_dir. }
  split.
  { rewrite test_attrs_frame by discriminate. unfold fit_attrs. cbv zeta.
    rewrite lookup_insert_ne by discriminate. apply lookup_insert_eq. }
  split.
  { rewrite test_attrs_frame by discriminate. unfold fit_attrs. cbv zeta.
    apply lookup_insert_eq. }
  split.
  { unfold test_attrs. apply lookup_insert_eq. }
  cbn [sub_dataset]. split; [|split; reflexivity].
  f_equal. exact Hlen.
Qed.

Lemma life_cycle_uses_data_dir_witness :
  exists st' cifar_train cifar_val cifar_test,
    (CIFAR10DataModule.__init__ (Some "/data") ;;;
     CIFAR10DataModule.prepare_data ;;;
     CIFAR10DataModule.setup None) (fresh online_machine) = Ok tt st'
    /\ fs (world st') = {["/data"]} ∪ fs online_machine
    /\ self st' !! "data_dir" = Some (VStr "/data")
    /\ self st' !! "cifar_train" = Some (VSubset cifar_train)
    /\ self st' !! "cifar_val" = Some (VSubset cifar_val)
    /\ self st' !! "cifar_test" = Some (VDataset cifar_test)
    /\ sub_dataset cifar_train
       = mkDataset "/data" true (Some cifar_transform) 50000
    /\ sub_dataset cifar_val = sub_dataset cifar_train
    /\ cifar_test
       = mkDataset "/data" false (Some cifar_transform)
                   (cifar_len online_machine false).
Proof.
  apply (life_cycle_uses_data_dir (Some "/data") online_machine).
  - right. reflexivity.
  - reflexivity.
Defined.

(** X13: nothing pins the split.  Setting up for ['fit'] a second time
    draws again: the state after two calls is the state a single call leaves
    when it starts one draw later, so the subsets of the first call are
    replaced by a cut of the next permutation. *)
Theorem second_setup_splits_again (attrs : gmap string PyVal) (w : World)
    (root : string) (tf : Transform) :
  attrs !! "data_dir" = Some (VStr root) ->
  attrs !! "transform" = Some (VTransform tf) ->
  root ∈ fs w ->
  cifar_len w true = 50000 ->
  exists st',
    (CIFAR10DataModule.setup (Some "fit") ;;;
     CIFAR10DataModule.setup (Some "fit")) (mkSt attrs w) = Ok tt st'
    /\ CIFAR10DataModule.setup (Some "fit")
         (mkSt attrs (set_draws (S (draws w)) w)) = Ok tt st'
    /\ draws (world st') = S (S (draws w))
    /\ exists cifar_train cifar_val,
         self st' !! "cifar_train" = Some (VSubset cifar_train)
         /\ self st' !! "cifar_val" = Some (VSubset cifar_val)
         /\ sub_indices cifar_train ++ sub_indices cifar_val
            = slice (rand w (S (draws w)) 50000) 0 50000.
Proof.
  intros Hdir Htf Hin Hlen. set (w1 := set_draws (S (draws w)) w).
  exists (mkSt (fit_attrs root tf w1 attrs) (set_draws (S (draws w1)) w1)).
  split; [|split; [|split]].
  - erewrite bind_Ok; [|now apply (setup_stage_fit attrs w root tf)].
    fold w1. rewrite (setup_stage_fit _ w1 root tf).
    + f_equal. f_equal. unfold fit_attrs. cbv zeta.
      rewrite (insert_insert_ne _ "cifar_train" "cifar_val") by discriminate.
      now rewrite !insert_insert_eq.
    + rewrite fit_attrs_frame by discriminate. exact Hdir.
    + rewrite fit_attrs_frame by discriminate. exact Htf.
    + exact Hin.
    + exact Hlen.
  - now apply (setup_stage_fit attrs w1 root tf).
  - reflexivity.
  - eexists _, _. cbn [self]. unfold fit_attrs. cbv zeta.
    split; [|split].
    + rewrite lookup_insert_ne by discriminate. apply lookup_insert_eq.
    + apply lookup_insert_eq.
    + cbn [sub_indices]. apply slice_app; lia.
Qed.

Lemma second_setup_splits_again_witness :
  exists st',
    (CIFAR10DataModule.setup (Some "fit") ;;;
     CIFAR10DataModule.setup (Some "fit")) (mkSt dm_attrs local_copy) = Ok tt st'
    /\ draws (world st') = 2%nat.
Proof.
  destruct (second_setup_splits_again dm_attrs local_copy "./" cifar_transform)
    as (st' & H1 & _ & H2 & _).
  - reflexivity.
  - reflexivity.
  - change ("./" ∈ ({["./"]} : gset string)). now apply elem_of_singleton_2.
  - reflexivity.
  - exists st'. split; [exact H1|exact H2].
Defined.

(** ** What the three loaders serve *)

Lemma len_cons {A : Type} (x : A) (l : list A) : len (x :: l) = len l + 1.
Proof. unfold len. cbn [length]. lia. Qed.

Lemma sample_pair_inj (d : Dataset) : Inj (=) (=) (fun i : N => (d, i)).
Proof. intros i j H. now injection H. Qed.

(** X14: no sample is served by two loaders.  After [setup(None)] the
    samples of the train subset and those of the validation subset are,
    together, the samples of the full training set, each exactly once, and
    the list of the samples of the three datasets has no repetition. *)
Theorem loaders_share_no_sample (attrs : gmap string PyVal) (w : World)
    (root : string) (tf : Transform) :
  attrs !! "data_dir" = Some (VStr root) ->
  attrs !! "transform" = Some (VTransform tf) ->
  root ∈ fs w ->
  cifar_len w true = 50000 ->
  fair_generator w ->
  exists st' cifar_train cifar_val cifar_test,
    CIFAR10DataModule.setup None (mkSt attrs w) = Ok tt st'
    /\ self st' !! "cifar_train" = Some cifar_train
    /\ self st' !! "cifar_val" = Some cifar_val
    /\ self st' !! "cifar_test" = Some cifar_test
    /\ samples_of cifar_train ++ samples_of cifar_val
       ≡ₚ samples_of (VDataset (mkDataset root true (Some tf) 50000))
    /\ NoDup (samples_of cifar_train ++ samples_of cifar_val
                ++ samples_of cifar_test).
Proof.
  intros Hdir Htf Hin Hlen Hfair.
  destruct (split_facts (rand w (draws w) 50000) (Hfair _ _))
    as (_ & _ & _ & Hperm).
  eexists _, _, _, _. split; [now apply (setup_stage_None attrs w root tf)|].
  cbn [self]. split; [|split; [|split]].
  { rewrite test_attrs_frame by discriminate. unfold fit_attrs. cbv zeta.
    rewrite lookup_insert_ne by discriminate. apply lookup_insert_eq. }
  { rewrite test_attrs_frame by discriminate. unfold fit_attrs. cbv zeta.
    apply lookup_insert_eq. }
  { unfold test_attrs. apply lookup_insert_eq. }
  cbn [samples_of sub_dataset sub_indices ds_len]. rewrite Hlen.
  set (full := mkDataset root true (Some tf) 50000).
  set (test := mkDataset root false (Some tf) (cifar_len w false)).
  assert (Hall : ((fun i => (full, i)) <$> slice (rand w (draws w) 50000) 0 45000)
                 ++ ((fun i => (full, i))
                       <$> slice (rand w (draws w) 50000) 45000 50000)
                 ≡ₚ (fun i => (full, i)) <$> range 50000).
  { rewrite <- fmap_app. now rewrite Hperm. }
  split; [exact Hall|].
  rewrite app_assoc. apply NoDup_app. split; [|split].
  - rewrite Hall. apply (NoDup_fmap_2 _), NoDup_range.
  - intros s Hs Ht. rewrite Hall in Hs.
    apply list_elem_of_fmap in Hs as (i & -> & _).
    apply list_elem_of_fmap in Ht as (j & Hj & _).
    discriminate Hj.
  - apply (NoDup_fmap_2 _), NoDup_range.
Qed.

Lemma loaders_share_no_sample_witness :
  exists st' cifar_train cifar_val cifar_test,
    CIFAR10DataModule.setup None (mkSt dm_attrs local_copy) = Ok tt st'
    /\ self st' !! "cifar_train" = Some cifar_train
    /\ self st' !! "cifar_val" = Some cifar_val
    /\ self st' !! "cifar_test" = Some cifar_test
    /\ samples_of cifar_train ++ samples_of cifar_val
       ≡ₚ samples_of (VDataset (mkDataset "./" true (Some cifar_transform) 50000))
    /\ NoDup (samples_of cifar_train ++ samples_of cifar_val
                ++ samples_of cifar_test).
Proof.
  apply (loaders_share_no_sample dm_attrs local_copy "./" cifar_transform).
  - reflexivity.
  - reflexivity.
  - change ("./" ∈ ({["./"]} : gset string)). now apply elem_of_singleton_2.
  - reflexivity.
  - intros k n. reflexivity.
Defined.

(** The batch sampler yields as many batches as it takes to hold every
    index: the number of indices over the batch size, rounded up. *)
Lemma batch_sampler_count (bs : N) (sampler batch : list N) :
  len batch < bs ->
  len (batch_sampler bs false batch sampler)
  = (len batch + len sampler + bs - 1) / bs.
Proof.
  revert batch. induction sampler as [|idx rest IH]; intros batch Hlt.
  - cbn [batch_sampler negb]. rewrite andb_true_r.
    change (len (@nil N)) with 0. rewrite N.add_0_r.
    destruct (0 <? len batch) eqn:Hpos.
    + apply N.ltb_lt in Hpos. change (len [batch]) with 1.
      apply (N.div_unique _ _ _ (len batch - 1)); lia.
    + apply N.ltb_ge in Hpos. change (len (@nil (list N))) with 0.
      symmetry. apply N.div_small. lia.
  - cbn [batch_sampler]. rewrite len_cons.
    assert (Hlen : len (batch ++ [idx]) = len batch + 1).
    { rewrite len_app. reflexivity. }
    destruct (len (batch ++ [idx]) =? bs) eqn:Hfull.
    + apply N.eqb_eq in Hfull.
      rewrite len_cons, IH by (change (len (@nil N)) with 0; lia).
      change (len (@nil N)) with 0.
      replace (len batch + (len rest + 1) + bs - 1)
        with (1 * bs + (0 + len rest + bs - 1)) by lia.
      rewrite N.div_add_l by lia. lia.
    + apply N.eqb_neq in Hfull. rewrite IH by lia.
      f_equal. lia.
Qed.

(** A pass over a sequential loader that keeps its last batch has
    [ceil(n / batch_size)] batches. *)
Lemma iterate_count (dl : DataLoader) (n : N) :
  shuffle dl = false -> drop_last dl = false -> 0 < batch_size dl ->
  py_len (dl_dataset dl) = Some n -> well_indexed (dl_dataset dl) ->
  exists batches,
    (forall w, iterate dl w = Ok batches w)
    /\ len batches = (n + batch_size dl - 1) / batch_size dl.
Proof.
  intros Hsh Hdrop Hbs Hn Hwi.
  destruct (getitem_total _ _ Hn Hwi) as (g & Hg & _).
  destruct (batch_sampler_spec (batch_size dl) (range n) [])
    as (Hcat & _ & _); [rewrite len_nil; assumption|].
  pose proof (batch_sampler_count (batch_size dl) (range n) []) as Hcount.
  change (len (@nil N)) with 0 in Hcount.
  rewrite len_range, N.add_0_l in Hcount.
  set (r := batch_sampler (batch_size dl) false [] (range n)) in *.
  exists ((fun b : list N => g <$> b) <$> r). split.
  - intros w. unfold iterate. rewrite Hn, Hsh, Hdrop. rewrite bind_ret.
    fold r. rewrite (mapM_total _ (fun b : list N => g <$> b)); [reflexivity|].
    apply Forall_forall. intros b Hb. apply mapM_total.
    apply Forall_forall. intros j Hj. apply Hg.
    apply elem_of_range. rewrite <- (app_nil_l (range n)), <- Hcat.
    now apply elem_of_concat with b.
  - unfold len. rewrite length_fmap. apply Hcount. assumption.
Qed.

(** X15: the length of an epoch.  After [setup(None)] a pass over the
    train loader has [ceil(45000 / BATCH_SIZE)] batches, that is 176 with a
    CUDA device and 704 without; a pass over the validation loader has
    [ceil(5000 / BATCH_SIZE)], that is 20 and 79; a pass over the test loader
    has the size of the test set over [BATCH_SIZE], rounded up. *)
Theorem batches_per_pass (attrs : gmap string PyVal) (w : World)
    (root : string) (tf : Transform) :
  attrs !! "data_dir" = Some (VStr root) ->
  attrs !! "transform" = Some (VTransform tf) ->
  root ∈ fs w ->
  cifar_len w true = 50000 ->
  fair_generator w ->
  exists st' train val test,
    CIFAR10DataModule.setup None (mkSt attrs w) = Ok tt st'
    /\ CIFAR10DataModule.train_dataloader (module_constants w) st' = Ok train st'
    /\ CIFAR10DataModule.val_dataloader (module_constants w) st' = Ok val st'
    /\ CIFAR10DataModule.test_dataloader (module_constants w) st' = Ok test st'
    /\ (forall w1 batches, iterate train w1 = Ok batches w1 ->
          len batches = if cuda w then 176 else 704)
    /\ (forall w1 batches, iterate val w1 = Ok batches w1 ->
          len batches = if cuda w then 20 else 79)
    /\ (forall w1 batches, iterate test w1 = Ok batches w1 ->
          len batches
          = (cifar_len w false + BATCH_SIZE (module_constants w) - 1)
            / BATCH_SIZE (module_constants w)).
Proof.
  intros Hdir Htf Hin Hlen Hfair.
  pose proof (BATCH_SIZE_pos w) as Hpos.
  pose proof (BATCH_SIZE_nonzero w) as Hbs.
  destruct (split_facts (rand w (draws w) 50000) (Hfair _ _))
    as (Htr & Hva & _ & _).
  destruct (datasets_after_setup attrs w root tf _ _ Hlen Hfair train_in_loaders)
    as (vtr & Hvtr & _ & Hwtr).
  destruct (datasets_after_setup attrs w root tf _ _ Hlen Hfair val_in_loaders)
    as (vva & Hvva & _ & Hwva).
  destruct (datasets_after_setup attrs w root tf _ _ Hlen Hfair test_in_loaders)
    as (vte & Hvte & _ & Hwte).
  assert (Hntr : py_len vtr = Some 45000).
  { rewrite test_attrs_frame in Hvtr by discriminate.
    unfold fit_attrs in Hvtr. cbv zeta in Hvtr.
    rewrite lookup_insert_ne in Hvtr by discriminate.
    rewrite lookup_insert_eq in Hvtr. injection Hvtr as <-.
    cbn [py_len sub_indices]. now rewrite Htr. }
  assert (Hnva : py_len vva = Some 5000).
  { rewrite test_attrs_frame in Hvva by discriminate.
    unfold fit_attrs in Hvva. cbv zeta in Hvva.
    rewrite lookup_insert_eq in Hvva. injection Hvva as <-.
    cbn [py_len sub_indices]. now rewrite Hva. }
  assert (Hnte : py_len vte = Some (cifar_len w false)).
  { unfold test_attrs in Hvte. rewrite lookup_insert_eq in Hvte.
    injection Hvte as <-. reflexivity. }
  set (bs := BATCH_SIZE (module_constants w)) in *.
  destruct (iterate_count (mkDataLoader vtr bs false false) 45000)
    as (btr & Hitr & Hctr); try reflexivity; try assumption.
  destruct (iterate_count (mkDataLoader vva bs false false) 5000)
    as (bva & Hiva & Hcva); try reflexivity; try assumption.
  destruct (iterate_count (mkDataLoader vte bs false false) (cifar_len w false))
    as (bte & Hite & Hcte); try reflexivity; try assumption.
  cbn [batch_size] in Hctr, Hcva, Hcte.
  eexists _, _, _, _.
  split; [now apply (setup_stage_None attrs w root tf)|].
  split; [apply (loader_Ok "cifar_train");
          [apply train_in_loaders|exact Hvtr|exact Hbs]|].
  split; [apply (loader_Ok "cifar_val");
          [apply val_in_loaders|exact Hvva|exact Hbs]|].
  split; [apply (loader_Ok "cifar_test");
          [apply test_in_loaders|exact Hvte|exact Hbs]|].
  fold bs. split; [|split].
  - intros w1 batches Hb. rewrite Hitr in Hb. injection Hb as <-.
    rewrite Hctr. unfold bs, module_constants. cbn [BATCH_SIZE].
    now destruct (cuda w).
  - intros w1 batches Hb. rewrite Hiva in Hb. injection Hb as <-.
    rewrite Hcva. unfold bs, module_constants. cbn [BATCH_SIZE].
    now destruct (cuda w).
  - intros w1 batches Hb. rewrite Hite in Hb. injection Hb as <-.
    exact Hcte.
Qed.

Lemma batches_per_pass_witness :
  exists st' train val test,
    CIFAR10DataModule.setup None (mkSt dm_attrs local_copy) = Ok tt st'
    /\ CIFAR10DataModule.train_dataloader (module_constants local_copy) st'
       = Ok train st'
    /\ CIFAR10DataModule.val_dataloader (module_constants local_copy) st'
       = Ok val st'
    /\ CIFAR10DataModule.test_dataloader (module_constants local_copy) st'
       = Ok test st'
    /\ (forall w1 batches, iterate train w1 = Ok batches w1 ->
          len batches = 704)
    /\ (forall w1 batches, iterate val w1 = Ok batches w1 ->
          len batches = 79)
    /\ (forall w1 batches, iterate test w1 = Ok batches w1 ->
          len batches = (10000 + 64 - 1) / 64).
Proof.
  apply (batches_per_pass dm_attrs local_copy "./" cifar_transform).
  - reflexivity.
  - reflexivity.
  - change ("./" ∈ ({["./"]} : gset string)). now apply elem_of_singleton_2.
  - reflexivity.
  - intros k n. reflexivity.
Defined.

(** * Further properties of the model adapter *)

Lemma correct_predictions_le (predicted labels : list N) :
  correct_predictions predicted labels <= len labels.
Proof.
  unfold correct_predictions, len.
  pose proof (length_filter (fun p : N * N => p.1 = p.2) (zip predicted labels)).
  pose proof (length_zip predicted labels). lia.
Qed.

Lemma correct_predictions_all (predicted labels : list N) :
  length predicted = length labels ->
  correct_predictions predicted labels = len labels <-> predicted = labels.
Proof.
  unfold correct_predictions, len. rewrite Nat2N.inj_iff.
  revert labels. induction predicted as [|x p IH]; intros [|z y] Hlen;
    try discriminate Hlen.
  - split; reflexivity.
  - injection Hlen as Hlen. cbn [zip_with]. rewrite filter_cons. cbn [fst snd].
    destruct (decide (x = z)) as [->|Hne].
    + cbn [length]. rewrite Nat.succ_inj_wd, (IH y Hlen).
      split; [now intros ->|now intros [= ->]].
    + split.
      * intros H.
        pose proof (length_filter (fun q : N * N => q.1 = q.2) (zip p y)).
        pose proof (length_zip p y). cbn [length] in H. lia.
      * intros [= -> _]. now contradict Hne.
Qed.

Section Accuracy.

Variables Images Matrix Scalar : Type.
Variable call : nnModule -> Images -> Matrix.
Variable log_softmax : Matrix -> Z -> Matrix.
Variable nll_loss : Matrix -> list N -> Scalar.
Variable argmax : Matrix -> Z -> list N.
Variable true_divide : N -> N -> Scalar.

Local Abbreviation validation_step' :=
  (LitModel.validation_step Images Matrix Scalar call log_softmax nll_loss
                            argmax true_divide).
Local Abbreviation forward' := (LitModel.forward Images Matrix call log_softmax).

(** X16: the accuracy that [validation_step] logs is a proportion.  The
    number it divides by the batch length is never more than the batch
    length, and when there is one prediction per label it is the batch
    length exactly when every prediction is the label.  Nothing guards the
    division: for an empty batch it is 0 divided by 0. *)
Theorem validation_accuracy_is_a_proportion
    (self : LitModel.LitModel) (x : Images) (y : list N) (batch_idx : N)
    (logged : list (LogEntry Scalar)) :
  exists loss correct,
    validation_step' self (x, y) batch_idx logged
    = Ok tt (logged ++ [mkLogEntry "val_loss" loss true true;
                        mkLogEntry "val_acc" (true_divide correct (len y))
                                   true true])
    /\ correct <= len y
    /\ (y = [] -> correct = 0 /\ len y = 0)
    /\ (length (argmax (forward' self x) 1) = length y ->
        correct = len y <-> argmax (forward' self x) 1 = y).
Proof.
  exists (nll_loss (forward' self x) y),
         (correct_predictions (argmax (forward' self x) 1) y).
  split; [|split; [|split]].
  - unfold LitModel.validation_step, LitModel.log, bind, modify.
    cbn [default]. rewrite tensor_sum_eq, <- app_assoc. reflexivity.
  - apply correct_predictions_le.
  - intros ->. split; [|reflexivity].
    pose proof (correct_predictions_le (argmax (forward' self x) 1) []) as H.
    change (len (@nil N)) with 0 in H. lia.
  - apply correct_predictions_all.
Qed.

End Accuracy.

Lemma validation_accuracy_is_a_proportion_witness :
  exists loss correct,
    LitModel.validation_step unit unit Traced
      (fun _ _ => tt) (fun m _ => m) (fun _ target => NllLoss target)
      (fun _ _ => [3; 5]) TrueDivide
      (LitModel.__init__ (Mod [] [])) (tt, [3; 5]) 0 []
    = Ok tt ([] ++ [mkLogEntry "val_loss" loss true true;
                    mkLogEntry "val_acc" (TrueDivide correct 2) true true])
    /\ correct = 2.
Proof.
  destruct (validation_accuracy_is_a_proportion unit unit Traced
              (fun _ _ => tt) (fun m _ => m) (fun _ target => NllLoss target)
              (fun _ _ => [3; 5]) TrueDivide
              (LitModel.__init__ (Mod [] [])) tt [3; 5] 0 [])
    as (loss & correct & H & _ & _ & Hall).
  exists loss, correct. split; [exact H|].
  apply Hall; reflexivity.
Defined.
